(** * ETL: the query engine of app.etl.core and the plan builder of
    app.compiler.yacc, embedded in Rocq.

    A pandas DataFrame is a [Relation]: its column labels and its rows (the
    row index is not modelled).  Every Python exception the embedded code
    raises is a constructor of [Err]; fallible code returns [result]. *)

From Stdlib Require Import List String Ascii ZArith Bool Lia.
Import ListNotations.
Open Scope string_scope.
Open Scope list_scope.

(** ** Cells, relations, results *)

Inductive Value : Type :=
| VStr (s : string)
| VInt (z : Z)
| VBool (b : bool)
| VNull.

Definition Value_eqb (a b : Value) : bool :=
  match a, b with
  | VStr x, VStr y => String.eqb x y
  | VInt x, VInt y => Z.eqb x y
  | VBool x, VBool y => Bool.eqb x y
  | VNull, VNull => true
  | _, _ => false
  end.

Record Relation : Type := mkRelation {
  columns : list string;
  rows : list (list Value)
}.

(** [pd.DataFrame()]: no columns and no rows. *)
Definition empty_frame : Relation := mkRelation [] [].

(** [df.empty]: true when either axis has length 0. *)
Definition frame_empty (d : Relation) : bool :=
  match rows d, columns d with
  | [], _ => true
  | _, [] => true
  | _, _ => false
  end.

Inductive Side : Type := LeftSide | RightSide.

(** The exceptions raised by the embedded code. *)
Inductive Err : Type :=
| NullInput                          (* ValueError: input DataFrame(s) None *)
| InvalidJoinType (how : string)     (* ValueError: Invalid join type ... *)
| JoinColumnNotFound (side : Side) (col : string) (available : list string)
                                     (* KeyError: Column ... not found ... *)
| JoinFailed (msg left_col right_col how : string)
                                     (* Exception: Error during join ... *)
| ColumnNotInGroupBy                 (* There is a column not included in GROUP BY *)
| AggregationWithoutGroupBy          (* Aggregation functions used without GROUP BY *)
| ColumnIndexOutOfRange (idx : Z)    (* IndexError: Column index ... out of range *)
| NotAnInteger (s : string)          (* ValueError raised by int(...) *)
| ColumnNotFound (col : string)      (* KeyError raised by pandas indexing *)
| InvalidLimit                       (* LIMIT/TAIL requires a non-negative integer *)
| HelperFailure (msg : string)       (* an exception of app.etl.helpers *)
| ParserError (msg token : string)   (* app.core.errors.ParserError *)
| NotEnoughValuesToUnpack (s : string).
                                     (* ValueError of [a, b = s.split(":", 1)] *)

Inductive result (A : Type) : Type :=
| Ok (a : A)
| Error (e : Err).
Arguments Ok {A} a.
Arguments Error {A} e.

Definition bind {A B : Type} (r : result A) (f : A -> result B) : result B :=
  match r with
  | Ok a => f a
  | Error e => Error e
  end.

Notation "'let*' x := r 'in' k" := (bind r (fun x => k))
  (at level 200, x name, r at level 100, k at level 200).

Fixpoint str_mem (s : string) (l : list string) : bool :=
  match l with
  | [] => false
  | x :: l' => String.eqb s x || str_mem s l'
  end.

(** ** [join] (app/etl/core.py) *)

Definition valid_join_types : list string := ["inner"; "left"; "right"; "outer"].

(** The module-level slot [transformed_data] that [join] and
    [transform_select] overwrite on success. *)
Record EtlState : Type := mkEtlState { transformed_data : option Relation }.

Section Join.

(** [pandas.DataFrame.merge] with [suffixes=("_left", "_right")]: an operation
    of the pandas library, taken as a parameter; a failure carries the
    exception's text. *)
Variable merge : Relation -> Relation -> string -> string -> string -> sum string Relation.

Definition join (df1 df2 : option Relation) (left_col right_col how : string)
  : result Relation :=
  if negb (str_mem how valid_join_types) then Error (InvalidJoinType how)
  else
    match df1, df2 with
    | Some d1, Some d2 =>
        if frame_empty d1 && frame_empty d2 then Ok empty_frame
        else if frame_empty d1 then
          if str_mem how ["inner"; "left"] then Ok empty_frame else Ok d2
        else if frame_empty d2 then
          if str_mem how ["inner"; "right"] then Ok empty_frame else Ok d1
        else if negb (str_mem left_col (columns d1)) then
          Error (JoinColumnNotFound LeftSide left_col (columns d1))
        else if negb (str_mem right_col (columns d2)) then
          Error (JoinColumnNotFound RightSide right_col (columns d2))
        else
          match merge d1 d2 left_col right_col how with
          | inl msg => Error (JoinFailed msg left_col right_col how)
          | inr r => Ok r
          end
    | _, _ => Error NullInput
    end.

(** [join] with its write to the global slot. *)
Definition join_st (st : EtlState) (df1 df2 : option Relation)
  (left_col right_col how : string) : EtlState * result Relation :=
  match join df1 df2 left_col right_col how with
  | Ok r => (mkEtlState (Some r), Ok r)
  | Error e => (st, Error e)
  end.

End Join.

(** ** The criteria bundle of [transform_select] *)

(** An item of [criteria["COLUMNS"]]: a column string or a tuple
    [(function, column)]; a positional reference is the string "[i]". *)
Inductive SelItem : Type :=
| SCol (c : string)
| SAgg (func : string) (col : string).

Inductive SelColumns : Type :=
| AllColumns                        (* the string "__all__" *)
| ColumnList (l : list SelItem).

(** Modelled from the spec: the node classes of app.compiler.ast_nodes (not
    in the repository's files) used by ORDER BY, as plain records of the
    fields the spec gives them ("Aggregation: { function, column }",
    "OrderByParameter{ parameter, direction }"). *)
Inductive ColumnRefNode : Type :=
| ColumnNameNode (name : string)
| ColumnIndexNode (index : Z).

Inductive AggColumn : Type :=
| AggOnNode (c : ColumnRefNode)
| AggOnRaw (s : string).           (* the bare token value, e.g. "*" *)

Record AggregationNode : Type := mkAggregationNode {
  agg_function : string;
  agg_column : AggColumn
}.

Inductive SortingWay : Type := ASC | DESC.

Inductive OrderTarget : Type :=
| OrderByColumn (c : ColumnRefNode)
| OrderByAggregation (a : AggregationNode).

Record OrderByParameter : Type := mkOrderByParameter {
  parameter : OrderTarget;
  way : SortingWay
}.

Record OrderByNode : Type := mkOrderByNode { parameters : list OrderByParameter }.

(** A WHERE operand ([p_exp]: a column or STRING value, both Python str, or
    a NUMBER) and the condition dicts built by [p_cond_3] and
    [p_conditions_not]. *)
Inductive Operand : Type :=
| OpStr (s : string)
| OpNumber (z : Z).

Inductive CondNode : Type :=
| CondExp (e : Operand)
| CondBin (type_ : string) (left right : CondNode)
| CondNot (type_ : string) (operand : CondNode).

(** The number of [criteria["LIMIT_OR_TAIL"]]: a Python int, or a value of
    another type. *)
Inductive LimitNum : Type :=
| LInt (n : Z)
| LNonInt.

Record Criteria : Type := mkCriteria {
  c_columns : SelColumns;
  c_distinct : bool;
  c_filter : option CondNode;
  c_group : option (list string);
  c_order : option OrderByNode;
  c_limit : option (string * LimitNum)
}.

(** Python truthiness of [criteria["GROUP"]] (None or a list). *)
Definition group_truthy (g : option (list string)) : bool :=
  match g with
  | Some (_ :: _) => true
  | _ => false
  end.

Definition is_agg (it : SelItem) : bool :=
  match it with SAgg _ _ => true | SCol _ => false end.

(** [all(isinstance(item, tuple) for item in criteria["COLUMNS"])], guarded by
    [criteria["COLUMNS"] != "__all__"]. *)
Definition are_select_columns_aggregation (cols : SelColumns) : bool :=
  match cols with
  | AllColumns => false
  | ColumnList l => forallb is_agg l
  end.

(** ** String helpers: [x.startswith("[") and x.endswith("]")], [x[1:-1]],
    Python's [int(...)] on a string. *)

Definition is_column_number (x : string) : bool :=
  String.prefix "[" x &&
  match String.length x with
  | 0 => false
  | S k => String.eqb (String.substring k 1 x) "]"
  end.

(** [x[1:-1]] *)
Definition strip_brackets (x : string) : string :=
  String.substring 1 (String.length x - 2) x.

(** The ASCII characters [str.strip] and [int] treat as whitespace: space,
    \t \n \v \f \r and the separators \x1c-\x1f. *)
Definition is_py_space (c : ascii) : bool :=
  let n := nat_of_ascii c in
  (n =? 32)%nat || ((9 <=? n)%nat && (n <=? 13)%nat) || ((28 <=? n)%nat && (n <=? 31)%nat).

Fixpoint drop_spaces (l : list ascii) : list ascii :=
  match l with
  | c :: l' => if is_py_space c then drop_spaces l' else l
  | [] => []
  end.

Definition digit_val (c : ascii) : option Z :=
  let n := nat_of_ascii c in
  if (48 <=? n)%nat && (n <=? 57)%nat then Some (Z.of_nat (n - 48)) else None.

(** Digits, a single [_] allowed between two digits. *)
Fixpoint parse_digits (acc : Z) (l : list ascii) : option Z :=
  match l with
  | [] => Some acc
  | c :: l' =>
      match digit_val c with
      | Some v => parse_digits (acc * 10 + v) l'
      | None =>
          if Ascii.eqb c "_" then
            match l' with
            | d :: _ => match digit_val d with
                        | Some _ => parse_digits acc l'
                        | None => None
                        end
            | [] => None
            end
          else None
      end
  end.

Definition parse_unsigned (l : list ascii) : option Z :=
  match l with
  | c :: _ => match digit_val c with
              | Some _ => parse_digits 0 l
              | None => None
              end
  | [] => None
  end.

(** [int(s)] for a string [s]: surrounding whitespace, an optional sign,
    digits.  The text is read as ASCII: the non-ASCII digits and spaces
    Python's [int] also accepts are not modelled. *)
Definition py_int (s : string) : result Z :=
  let l := rev (drop_spaces (rev (drop_spaces (list_ascii_of_string s)))) in
  let r := match l with
           | "-"%char :: l' => option_map Z.opp (parse_unsigned l')
           | "+"%char :: l' => parse_unsigned l'
           | _ => parse_unsigned l
           end in
  match r with
  | Some z => Ok z
  | None => Error (NotAnInteger s)
  end.

(** The index resolution written inline twice in [transform_select]:
    a string "[i]" names [data.columns[i]], after the range check. *)
Definition resolve_column_ref (d : Relation) (s : string) : result string :=
  if is_column_number s then
    let* idx := py_int (strip_brackets s) in
    if (idx <? 0)%Z || (Z.of_nat (List.length (columns d)) <=? idx)%Z then
      Error (ColumnIndexOutOfRange idx)
    else Ok (nth (Z.to_nat idx) (columns d) "")
  else Ok s.

Fixpoint map_result {A B : Type} (f : A -> result B) (l : list A) : result (list B) :=
  match l with
  | [] => Ok []
  | x :: l' => let* y := f x in let* ys := map_result f l' in Ok (y :: ys)
  end.

Fixpoint index_of (s : string) (l : list string) : option nat :=
  match l with
  | [] => None
  | x :: l' => if String.eqb s x then Some 0 else option_map S (index_of s l')
  end.

(** [data[column_names]]: a KeyError for a label not among the columns. *)
Definition project (d : Relation) (names : list string) : result Relation :=
  let* idxs := map_result (fun n => match index_of n (columns d) with
                                     | Some i => Ok i
                                     | None => Error (ColumnNotFound n)
                                     end) names in
  Ok (mkRelation names (map (fun r => map (fun i => nth i r VNull) idxs) (rows d))).

(** ** Helpers of app.etl.helpers *)

(** Modelled from the spec: [get_unique] of app.etl.helpers (not in the
    repository's files), "de-duplicating while preserving first-occurrence
    order". *)
Fixpoint unique_from (seen : list string) (l : list string) : list string :=
  match l with
  | [] => []
  | x :: l' => if str_mem x seen then unique_from seen l' else x :: unique_from (x :: seen) l'
  end.

Definition get_unique (l : list string) : list string := unique_from [] l.

(** Modelled from the spec: [group_by_columns_names] of app.etl.helpers,
    "resolve each group key (index or name) to a concrete name". *)
Definition group_by_columns_names (d : Relation) (g : list string) : result (list string) :=
  map_result (resolve_column_ref d) g.

(** Modelled from the spec: [convert_select_column_indices_to_name] of
    app.etl.helpers, "resolve each selected column reference to a concrete
    name"; the wildcard selects every column of the relation. *)
Definition convert_select_column_indices_to_name (d : Relation) (cols : SelColumns)
  : result (list SelItem) :=
  match cols with
  | AllColumns => Ok (map SCol (columns d))
  | ColumnList l =>
      map_result (fun it => match it with
                            | SCol s => let* n := resolve_column_ref d s in Ok (SCol n)
                            | SAgg f s => let* n := resolve_column_ref d s in Ok (SAgg f n)
                            end) l
  end.

(** Modelled from the spec: [check_if_column_names_is_in_group_by] of
    app.etl.helpers: every non-aggregated selected column is a group key. *)
Definition check_if_column_names_is_in_group_by (select_cols : list SelItem)
  (groupby_cols : list string) : bool :=
  forallb (fun it => match it with
                     | SCol n => str_mem n groupby_cols
                     | SAgg _ _ => true
                     end) select_cols.

Section Transform.

(** The per-function reduction of an aggregation (sum, size, ...): the spec
    names no function set, so it is a parameter. *)
Variable aggregate : string -> list Value -> result Value.

(** Modelled from the spec: [generate_aggregation_row] of app.etl.helpers,
    "one output row whose cells are each aggregation function applied over
    the entire relation"; the column "*" (only [size( * )] reaches here)
    stands for the rows themselves, counted.  The output column labels are
    not given by the spec; the model writes [func(col)]. *)
Definition aggregate_cell (d : Relation) (fc : string * string) : result Value :=
  let (f, c) := fc in
  if String.eqb c "*" then Ok (VInt (Z.of_nat (List.length (rows d))))
  else match index_of c (columns d) with
       | Some i => aggregate f (map (fun r => nth i r VNull) (rows d))
       | None => Error (ColumnNotFound c)
       end.

Definition generate_aggregation_row (d : Relation) (aggs : list (string * string))
  : result Relation :=
  let* cells := map_result (aggregate_cell d) aggs in
  Ok (mkRelation (map (fun fc => (fst fc ++ "(" ++ snd fc ++ ")")%string) aggs) [cells]).

(** The helpers that decide no property below, taken as parameters:
    WHERE evaluation, the raw-row sort, and the grouping itself. *)
Variable apply_filtering : Relation -> CondNode -> result Relation.
Variable apply_order_by_without_groupby : Relation -> OrderByNode -> result Relation.
Variable apply_groupby : Relation -> list SelItem -> list string -> result Relation.
Variable apply_groupby_with_order :
  Relation -> list SelItem -> list string -> OrderByNode -> result Relation.

(** Stage 1, WHERE. *)
Definition filter_stage (c : Criteria) (d : Relation) : result Relation :=
  match c_filter c with
  | Some f => apply_filtering d f
  | None => Ok d
  end.

(** Stage 2, ORDER without GROUP. *)
Definition pre_group_sort_runs (c : Criteria) : bool :=
  negb (group_truthy (c_group c)) &&
  match c_order c with Some _ => true | None => false end &&
  negb (are_select_columns_aggregation (c_columns c)).

Definition order_stage (c : Criteria) (d : Relation) : result Relation :=
  if pre_group_sort_runs c then
    match c_order c with
    | Some o => apply_order_by_without_groupby d o
    | None => Ok d
    end
  else Ok d.

(** Stage 3, GROUP BY. *)
Definition group_stage (c : Criteria) (g : list string) (d : Relation) : result Relation :=
  let* keys := group_by_columns_names d g in
  let groupby_cols := get_unique keys in
  let* select_cols := convert_select_column_indices_to_name d (c_columns c) in
  if negb (check_if_column_names_is_in_group_by select_cols groupby_cols) then
    Error ColumnNotInGroupBy
  else
    match c_order c with
    | Some o => apply_groupby_with_order d select_cols groupby_cols o
    | None => apply_groupby d select_cols groupby_cols
    end.

(** The [(func, column)] tuples of an all-aggregation list. *)
Fixpoint agg_pairs (l : list SelItem) : list (string * string) :=
  match l with
  | [] => []
  | SAgg f s :: l' => (f, s) :: agg_pairs l'
  | SCol _ :: l' => agg_pairs l'
  end.

(** The plain column strings of an aggregation-free list. *)
Fixpoint plain_cols (l : list SelItem) : list string :=
  match l with
  | [] => []
  | SCol s :: l' => s :: plain_cols l'
  | SAgg _ _ :: l' => plain_cols l'
  end.

(** Stage 4, SELECT specific columns without GROUP BY. *)
Definition project_stage (c : Criteria) (d : Relation) : result Relation :=
  match c_columns c with
  | AllColumns => Ok d
  | ColumnList cols =>
      if are_select_columns_aggregation (c_columns c) then
        let* aggregate_columns :=
          map_result (fun fc => let* n := resolve_column_ref d (snd fc) in
                                Ok (fst fc, n)) (agg_pairs cols) in
        generate_aggregation_row d aggregate_columns
      else if existsb is_agg cols then Error AggregationWithoutGroupBy
      else
        let* column_names := map_result (resolve_column_ref d) (plain_cols cols) in
        project d column_names
  end.

Definition group_or_project_stage (c : Criteria) (d : Relation) : result Relation :=
  if group_truthy (c_group c) then
    match c_group c with
    | Some g => group_stage c g d
    | None => Ok d
    end
  else project_stage c d.

(** Stage 6, LIMIT / TAIL. *)
Definition limit_stage (lt : option (string * LimitNum)) (d : Relation) : result Relation :=
  match lt with
  | None => Ok d
  | Some (operator, number) =>
      match number with
      | LNonInt => Error InvalidLimit
      | LInt n =>
          if (n <? 0)%Z then Error InvalidLimit
          else if (n =? 0)%Z then Ok (mkRelation (columns d) [])
          else if String.eqb operator "limit" then
            Ok (mkRelation (columns d) (firstn (Z.to_nat n) (rows d)))
          else
            Ok (mkRelation (columns d)
                  (skipn (List.length (rows d) - Z.to_nat n) (rows d)))
      end
  end.

(** Stage 5, DISTINCT: [data.drop_duplicates()], first occurrences kept. *)
Fixpoint row_eqb (r1 r2 : list Value) : bool :=
  match r1, r2 with
  | [], [] => true
  | a :: r1', b :: r2' => Value_eqb a b && row_eqb r1' r2'
  | _, _ => false
  end.

Fixpoint row_mem (r : list Value) (l : list (list Value)) : bool :=
  match l with
  | [] => false
  | x :: l' => row_eqb r x || row_mem r l'
  end.

Fixpoint drop_duplicates_from (seen : list (list Value)) (l : list (list Value))
  : list (list Value) :=
  match l with
  | [] => []
  | r :: l' =>
      if row_mem r seen then drop_duplicates_from seen l'
      else r :: drop_duplicates_from (r :: seen) l'
  end.

Definition drop_duplicates (d : Relation) : Relation :=
  mkRelation (columns d) (drop_duplicates_from [] (rows d)).

Definition distinct_stage (c : Criteria) (d : Relation) : Relation :=
  if c_distinct c then drop_duplicates d else d.

Definition transform_select (data : option Relation) (c : Criteria) : result Relation :=
  match data with
  | None => Error NullInput
  | Some d0 =>
      let* d1 := filter_stage c d0 in
      let* d2 := order_stage c d1 in
      let* d3 := group_or_project_stage c d2 in
      let d4 := distinct_stage c d3 in
      limit_stage (c_limit c) d4
  end.

(** [transform_select] with its write to the global slot. *)
Definition transform_select_st (st : EtlState) (data : option Relation) (c : Criteria)
  : EtlState * result Relation :=
  match transform_select data c with
  | Ok r => (mkEtlState (Some r), Ok r)
  | Error e => (st, Error e)
  end.

End Transform.

(** ** The grammar of app/compiler/yacc.py

    PLY runs each [p_*] action bottom-up over the derivation of the token
    stream; a derivation is a tree below, each token carrying its value,
    and [eval_*] runs the actions on it. *)

Definition char_str (n : nat) : string := String (ascii_of_nat n) EmptyString.
Definition nl : string := char_str 10.
Definition squote : string := char_str 39.
Definition dquote : string := char_str 34.

Definition ends_with (suffix s : string) : bool :=
  let n := String.length s in
  let k := String.length suffix in
  (k <=? n)%nat && String.eqb (String.substring (n - k) k s) suffix.

(** Python's [str.isdigit] on ASCII text: non-empty, all digits.  The
    non-ASCII digits Python also accepts (such as superscripts) are not
    modelled; on a text holding an ASCII non-digit both give false. *)
Definition is_digit_str (s : string) : bool :=
  match list_ascii_of_string s with
  | [] => false
  | l => forallb (fun c => match digit_val c with Some _ => true | None => false end) l
  end.

(** [p_column] *)
Definition p_column (tok : string) : string :=
  if String.prefix "[" tok && ends_with "]" tok && negb (is_digit_str (strip_brackets tok))
  then strip_brackets tok else tok.

(** Derivation of [aggregation_function]'s argument: [column] or [TIMES]. *)
Inductive AggArgTree : Type :=
| AggArgColumn (tok : string)
| AggArgTimes.

(** Derivation of [columns]. *)
Inductive ColumnsTree : Type :=
| ColsColumn (tok : string)
| ColsAggregation (func : string) (arg : AggArgTree)
| ColsComma (l r : ColumnsTree).

Inductive SelectColumnsTree : Type :=
| SelectTimes
| SelectColumns (t : ColumnsTree).

(** The value of the [TIMES] token. *)
Definition times_tok : string := "*".

(** [p_aggregation_function] *)
Definition p_aggregation_function (func : string) (arg : AggArgTree) : result SelItem :=
  let a := match arg with AggArgColumn t => p_column t | AggArgTimes => times_tok end in
  if String.eqb a "*" && negb (String.eqb func "size") then
    Error (ParserError
      "Syntax error: You cannot use * with aggregation functions except SIZE(*)" "*")
  else Ok (SAgg func a).

(** [p_columns] and [p_columns_base] *)
Fixpoint eval_columns (t : ColumnsTree) : result (list SelItem) :=
  match t with
  | ColsColumn tok => Ok [SCol (p_column tok)]
  | ColsAggregation f a => let* it := p_aggregation_function f a in Ok [it]
  | ColsComma l r =>
      let* xs := eval_columns l in let* ys := eval_columns r in Ok (xs ++ ys)
  end.

(** [p_select_columns_all] and [p_select_columns] *)
Definition eval_select_columns (t : SelectColumnsTree) : result SelColumns :=
  match t with
  | SelectTimes => Ok AllColumns
  | SelectColumns c => let* l := eval_columns c in Ok (ColumnList l)
  end.

(** Derivations of [custom_column], of [custom_aggregation_column]'s
    argument, of [way], [order_by_param] and [order_by_parameters]. *)
Inductive CustomColumnTree : Type :=
| CustomBracketed (tok : string)
| CustomSimple (tok : string)
| CustomIndex (tok : string).

Inductive CustomAggArgTree : Type :=
| CustomAggColumn (c : CustomColumnTree)
| CustomAggTimes.

Inductive WayTree : Type := WayAsc | WayEmpty | WayDesc.

Inductive OrderParamTree : Type :=
| OrderParamAggregation (func : string) (arg : CustomAggArgTree) (w : WayTree)
| OrderParamColumn (c : CustomColumnTree) (w : WayTree).

Inductive OrderParamsTree : Type :=
| OrderParamsOne (p : OrderParamTree)
| OrderParamsComma (l r : OrderParamsTree).

(** [p_bracketed_column_name], [p_simple_column_name], [p_column_index] *)
Definition eval_custom_column (t : CustomColumnTree) : result ColumnRefNode :=
  match t with
  | CustomBracketed tok => Ok (ColumnNameNode (strip_brackets tok))
  | CustomSimple tok => Ok (ColumnNameNode tok)
  | CustomIndex tok => let* i := py_int (strip_brackets tok) in Ok (ColumnIndexNode i)
  end.

(** [p_custom_aggregation_column] *)
Definition p_custom_aggregation_column (func : string) (arg : CustomAggArgTree)
  : result AggregationNode :=
  match arg with
  | CustomAggColumn c => let* n := eval_custom_column c in
                         Ok (mkAggregationNode func (AggOnNode n))
  | CustomAggTimes =>
      if String.eqb func "size" then
        Ok (mkAggregationNode func (AggOnNode (ColumnNameNode "*")))
      else Ok (mkAggregationNode func (AggOnRaw times_tok))
  end.

Definition eval_way (w : WayTree) : SortingWay :=
  match w with WayAsc | WayEmpty => ASC | WayDesc => DESC end.

(** [p_order_by_param] *)
Definition eval_order_param (t : OrderParamTree) : result OrderByParameter :=
  match t with
  | OrderParamAggregation f a w =>
      let* n := p_custom_aggregation_column f a in
      Ok (mkOrderByParameter (OrderByAggregation n) (eval_way w))
  | OrderParamColumn c w =>
      let* n := eval_custom_column c in
      Ok (mkOrderByParameter (OrderByColumn n) (eval_way w))
  end.

(** [p_order_by_parameters_base] and [p_order_by_parameters] *)
Fixpoint eval_order_params (t : OrderParamsTree) : result (list OrderByParameter) :=
  match t with
  | OrderParamsOne p => let* x := eval_order_param p in Ok [x]
  | OrderParamsComma l r =>
      let* xs := eval_order_params l in let* ys := eval_order_params r in Ok (xs ++ ys)
  end.

(** [p_order] and [p_order_empty] *)
Definition eval_order (t : option OrderParamsTree) : result (option OrderByNode) :=
  match t with
  | None => Ok None
  | Some ps => let* l := eval_order_params ps in Ok (Some (mkOrderByNode l))
  end.

(** Derivations of [exp] and [conditions] (WHERE). *)
Inductive ExpTree : Type :=
| ExpColumn (tok : string)
| ExpString (s : string)
| ExpNumber (z : Z).

Inductive CondTree : Type :=
| CondParens (t : CondTree)
| CondAndOr (op : string) (l r : CondTree)
| CondLike (e : ExpTree) (like_tok : string) (s : string)
| CondCompare (e1 : ExpTree) (logical : string) (e2 : ExpTree)
| CondNotTree (not_tok : string) (t : CondTree).

(** [p_exp] *)
Definition eval_exp (e : ExpTree) : Operand :=
  match e with
  | ExpColumn tok => OpStr (p_column tok)
  | ExpString s => OpStr s
  | ExpNumber z => OpNumber z
  end.

(** [p_cond_parens], [p_cond_3], [p_conditions_not] *)
Fixpoint eval_cond (t : CondTree) : CondNode :=
  match t with
  | CondParens t' => eval_cond t'
  | CondAndOr op l r => CondBin op (eval_cond l) (eval_cond r)
  | CondLike e tok s => CondBin tok (CondExp (eval_exp e)) (CondExp (OpStr s))
  | CondCompare e1 op e2 => CondBin op (CondExp (eval_exp e1)) (CondExp (eval_exp e2))
  | CondNotTree tok t' => CondNot tok (eval_cond t')
  end.

(** Derivation of [icolumns] (GROUP BY). *)
Inductive IColumnsTree : Type :=
| IColsColumn (tok : string)
| IColsComma (l r : IColumnsTree).

(** [p_icolumns] and [p_icolumns_base] *)
Fixpoint eval_icolumns (t : IColumnsTree) : list string :=
  match t with
  | IColsColumn tok => [p_column tok]
  | IColsComma l r => eval_icolumns l ++ eval_icolumns r
  end.

(** Derivations of [table_source], [join_type], [qualified_column],
    [on_conditions] and [join_clause]. *)
Record TableSourceTree : Type := mkTableSource {
  ts_datasource : string;
  ts_alias : option string
}.

Inductive JoinTypeTree : Type :=
| JT_JOIN | JT_INNER_JOIN
| JT_LEFT_JOIN | JT_LEFT_OUTER_JOIN
| JT_RIGHT_JOIN | JT_RIGHT_OUTER_JOIN
| JT_FULL_JOIN | JT_FULL_OUTER_JOIN.

Inductive QualifiedColumnTree : Type :=
| QualifiedWithTable (table col_tok : string)
| QualifiedColumn (tok : string).

Inductive OnTree : Type :=
| OnAndOr (op : string) (l r : OnTree)
| OnEqual (l r : QualifiedColumnTree).

Record JoinClauseTree : Type := mkJoinClause {
  jc_type : JoinTypeTree;
  jc_source : TableSourceTree;
  jc_on : OnTree
}.

(** [p_join_type_*] *)
Definition eval_join_type (t : JoinTypeTree) : string :=
  match t with
  | JT_JOIN | JT_INNER_JOIN => "inner"
  | JT_LEFT_JOIN | JT_LEFT_OUTER_JOIN => "left"
  | JT_RIGHT_JOIN | JT_RIGHT_OUTER_JOIN => "right"
  | JT_FULL_JOIN | JT_FULL_OUTER_JOIN => "outer"
  end.

(** [p_qualified_column_with_table] and [p_qualified_column_no_table] *)
Definition eval_qualified_column (t : QualifiedColumnTree) : string :=
  match t with
  | QualifiedWithTable tb c => (tb ++ "." ++ c)%string
  | QualifiedColumn tok => p_column tok
  end.

(** The ON dicts: [{'left': l, 'right': r}] from [p_on_conditions_base] and
    [{'operator': op, 'left': a, 'right': b}] from [p_on_conditions_complex]. *)
Inductive OnCond : Type :=
| OnLeaf (left right : string)
| OnBin (operator : string) (left right : OnCond).

Fixpoint eval_on (t : OnTree) : OnCond :=
  match t with
  | OnAndOr op l r => OnBin op (eval_on l) (eval_on r)
  | OnEqual l r => OnLeaf (eval_qualified_column l) (eval_qualified_column r)
  end.

(** The leaf equalities of an ON condition, left to right. *)
Fixpoint on_leaves (c : OnCond) : list (string * string) :=
  match c with
  | OnLeaf l r => [(l, r)]
  | OnBin _ a b => on_leaves a ++ on_leaves b
  end.

(** Python's [repr] of a str: single quotes unless the text holds a single
    quote and no double quote; the quote in use and the backslash escaped,
    tab, newline, carriage return and the other ASCII control characters
    written as escapes (bytes above 127 are copied). *)
Definition hex_digit (n : nat) : string :=
  String.substring n 1 "0123456789abcdef".

Definition repr_char (q : ascii) (c : ascii) : string :=
  let n := nat_of_ascii c in
  if Ascii.eqb c q || (n =? 92)%nat then String "\" (String c EmptyString)
  else if (n =? 9)%nat then "\t"
  else if (n =? 10)%nat then "\n"
  else if (n =? 13)%nat then "\r"
  else if (n <? 32)%nat || (n =? 127)%nat then
    ("\x" ++ hex_digit (n / 16) ++ hex_digit (n mod 16))%string
  else String c EmptyString.

Definition py_repr_str (s : string) : string :=
  let l := list_ascii_of_string s in
  let has c := existsb (Ascii.eqb c) l in
  let q := if has "'"%char && negb (has (ascii_of_nat 34)) then ascii_of_nat 34
           else "'"%char in
  (String q EmptyString ++
   String.concat "" (map (repr_char q) l) ++
   String q EmptyString)%string.

(** [str()] of an ON dict. *)
Fixpoint on_cond_str (c : OnCond) : string :=
  match c with
  | OnLeaf l r =>
      ("{'left': " ++ py_repr_str l ++ ", 'right': " ++ py_repr_str r ++ "}")%string
  | OnBin op a b =>
      ("{'operator': " ++ py_repr_str op ++ ", 'left': " ++ on_cond_str a ++
       ", 'right': " ++ on_cond_str b ++ "}")%string
  end.

(** [f"{on_condition['left']}"] and [f"{on_condition['right']}"]: a leaf's
    str values, or the str() of a complex condition's sub-dicts. *)
Definition on_left_text (c : OnCond) : string :=
  match c with OnLeaf l _ => l | OnBin _ a _ => on_cond_str a end.

Definition on_right_text (c : OnCond) : string :=
  match c with OnLeaf _ r => r | OnBin _ _ b => on_cond_str b end.

(** [a, b = s.split(":", 1)] *)
Fixpoint split_colon (s : string) : option (string * string) :=
  match s with
  | EmptyString => None
  | String c s' =>
      if Ascii.eqb c ":" then Some (EmptyString, s')
      else option_map (fun p => (String c (fst p), snd p)) (split_colon s')
  end.

Definition unpack_colon (s : string) : result (string * string) :=
  match split_colon s with
  | Some p => Ok p
  | None => Error (NotEnoughValuesToUnpack s)
  end.

(** Decimal text of a natural number, as [f"{idx}"] writes it. *)
Fixpoint digits_rev (fuel n : nat) : list ascii :=
  match fuel with
  | 0 => []
  | S f => ascii_of_nat (48 + n mod 10) ::
             (if (n <? 10)%nat then [] else digits_rev f (n / 10))
  end.

Definition nat_text (n : nat) : string := string_of_list_ascii (rev (digits_rev (S n) n)).

(** The text one iteration of [p_select]'s JOIN loop appends to [join_code]. *)
Definition join_step_code (idx : nat) (j_type j_path left_text right_text : string)
  (join_type : string) : string :=
  let join_var := ("join_df_" ++ nat_text idx)%string in
  (join_var ++ " = etl.extract('" ++ j_type ++ "', '" ++ j_path ++ "')" ++ nl ++
   "extracted_data = etl.join(" ++ nl ++
   "    extracted_data," ++ nl ++
   "    " ++ join_var ++ "," ++ nl ++
   "    '" ++ left_text ++ "'," ++ nl ++
   "    '" ++ right_text ++ "'," ++ nl ++
   "    how='" ++ join_type ++ "'" ++ nl ++
   ")" ++ nl)%string.

(** [p_join_clause]'s dict: [{'type', 'datasource', 'alias', 'on'}]. *)
Record JoinClause : Type := mkJoinClauseVal {
  j_kind : string;
  j_datasource : string;
  j_alias : option string;
  j_on : OnCond
}.

Definition eval_join_clause (t : JoinClauseTree) : JoinClause :=
  mkJoinClauseVal (eval_join_type (jc_type t)) (ts_datasource (jc_source t))
    (ts_alias (jc_source t)) (eval_on (jc_on t)).

(** [for idx, join_clause in enumerate(join_clauses)] with the alias
    mapping from alias to the variable holding its frame. *)
Fixpoint join_loop (idx : nat) (clauses : list JoinClause)
  (alias_mapping : list (string * string)) : result (string * list (string * string)) :=
  match clauses with
  | [] => Ok (EmptyString, alias_mapping)
  | jc :: rest =>
      let* tp := unpack_colon (j_datasource jc) in
      let join_var := ("join_df_" ++ nat_text idx)%string in
      let am := match j_alias jc with
                | Some a => (a, join_var) :: alias_mapping
                | None => alias_mapping
                end in
      let* r := join_loop (S idx) rest am in
      Ok ((join_step_code idx (fst tp) (snd tp) (on_left_text (j_on jc))
                           (on_right_text (j_on jc)) (j_kind jc) ++ fst r)%string,
          snd r)
  end.

(** The derivation of a SELECT statement. *)
Record SelectTree : Type := mkSelectTree {
  st_distinct : bool;
  st_columns : SelectColumnsTree;
  st_into : option string;
  st_from : TableSourceTree;
  st_joins : list JoinClauseTree;
  st_where : option CondTree;
  st_group : option IColumnsTree;
  st_order : option OrderParamsTree;
  st_limit : option (string * Z)
}.

(** The pieces [p_select] puts into the program text it returns:
    the extraction line, the join lines, the values interpolated into the
    [etl.transform_select(...)] call, and the load line. *)
Record SelectCode : Type := mkSelectCode {
  sc_extract_code : string;
  sc_join_code : string;
  sc_columns : SelColumns;
  sc_distinct : bool;
  sc_filter : option CondNode;
  sc_group : option (list string);
  sc_order : option OrderByNode;
  sc_limit : option (string * Z);
  sc_load_call : string
}.

(** [p_select], after its children ([distinct], [select_columns], ...,
    [limit_or_tail]) are reduced in order. *)
Definition p_select (t : SelectTree) : result SelectCode :=
  let* cols := eval_select_columns (st_columns t) in
  let into := st_into t in
  let main_table := st_from t in
  let joins := map eval_join_clause (st_joins t) in
  let where_clause := option_map eval_cond (st_where t) in
  let group_clause := option_map eval_icolumns (st_group t) in
  let* order_clause := eval_order (st_order t) in
  let* ds := unpack_colon (ts_datasource main_table) in
  let* load_call :=
    match into with
    | Some (String _ _ as p4) =>
        let* lp := unpack_colon p4 in
        match lp with
        | (String _ _ as load_type, String _ _ as load_path) =>
            Ok ("etl.load(transformed_data, '" ++ load_type ++ "', '" ++ load_path ++ "')")%string
        | _ => Ok EmptyString
        end
    | _ => Ok EmptyString
    end in
  let extract_code :=
    ("extracted_data = etl.extract('" ++ fst ds ++ "', '" ++ snd ds ++ "')" ++ nl)%string in
  let alias_mapping := match ts_alias main_table with
                       | Some a => [(a, "extracted_data")]
                       | None => []
                       end in
  let* jc := join_loop 0 joins alias_mapping in
  Ok (mkSelectCode extract_code (fst jc) cols (st_distinct t) where_clause group_clause
        order_clause (st_limit t) load_call).

(** A merge for closed instances of [join] whose inputs never reach the
    merge call. *)
Definition merge_never_reached (_ _ : Relation) (_ _ _ : string) : sum string Relation :=
  inl "merge not reached".

(** The criteria dict the generated program passes to [transform_select]. *)
Definition plan_criteria (sc : SelectCode) : Criteria :=
  mkCriteria (sc_columns sc) (sc_distinct sc) (sc_filter sc) (sc_group sc) (sc_order sc)
    (option_map (fun p => (fst p, LInt (snd p))) (sc_limit sc)).

(** Helpers for closed instances of [transform_select]: every stage helper
    that is a parameter returns its input, aggregation sums integers. *)
Definition sum_values (vs : list Value) : Z :=
  fold_right (fun v acc => match v with VInt z => (z + acc)%Z | _ => acc end) 0%Z vs.

Definition aggregate_sum_size (f : string) (vs : list Value) : result Value :=
  if String.eqb f "sum" then Ok (VInt (sum_values vs))
  else if String.eqb f "size" then Ok (VInt (Z.of_nat (List.length vs)))
  else Error (HelperFailure f).

Definition keep_filter (d : Relation) (_ : CondNode) : result Relation := Ok d.
Definition keep_order (d : Relation) (_ : OrderByNode) : result Relation := Ok d.
Definition keep_groupby (d : Relation) (_ : list SelItem) (_ : list string) : result Relation := Ok d.
Definition keep_groupby_order (d : Relation) (_ : list SelItem) (_ : list string)
  (_ : OrderByNode) : result Relation := Ok d.

(** The relation sales(region, amount) of the spec's scenarios. *)
Definition sales : Relation :=
  mkRelation ["region"; "amount"]
    [[VStr "east"; VInt 10]; [VStr "west"; VInt 5]; [VStr "east"; VInt 20]].

(** The derivation of [SELECT region FROM csv:sales.csv GROUP BY amount;]. *)
Definition scenario_d_tree : SelectTree :=
  mkSelectTree false (SelectColumns (ColsColumn "region")) None
    (mkTableSource "csv:sales.csv" None) [] None (Some (IColsColumn "amount")) None None.

(** [SELECT sum(amount) FROM csv:sales.csv WHERE region = 'east';] (Scenario C),
    with the WHERE stage evaluated to the east rows. *)
Definition east_rows : Relation :=
  mkRelation ["region"; "amount"] [[VStr "east"; VInt 10]; [VStr "east"; VInt 20]].

Definition filter_east (d : Relation) (_ : CondNode) : result Relation :=
  Ok (mkRelation (columns d)
        (filter (fun r => match r with VStr s :: _ => String.eqb s "east" | _ => false end)
           (rows d))).

(** The condition under which the spec runs the pre-group sort: no GROUP BY,
    an ORDER BY, and a select list that is not made only of aggregations. *)
Definition pre_group_sort_condition (c : Criteria) : Prop :=
  (c_group c = None \/ c_group c = Some []) /\
  (exists o, c_order c = Some o) /\
  ~ (exists l, c_columns c = ColumnList l /\ Forall (fun it => is_agg it = true) l).

(** Scenario B's criteria: [SELECT * FROM ... ORDER BY amount DESC LIMIT 2;]. *)
Definition scenario_b_criteria : Criteria :=
  mkCriteria AllColumns false None None
    (Some (mkOrderByNode [mkOrderByParameter (OrderByColumn (ColumnNameNode "amount")) DESC]))
    (Some ("limit", LInt 2)).

(** [ON t1.x = t2.y AND t1.z = t2.w] *)
Definition composite_on : OnTree :=
  OnAndOr "AND" (OnEqual (QualifiedWithTable "t1" "x") (QualifiedWithTable "t2" "y"))
                (OnEqual (QualifiedWithTable "t1" "z") (QualifiedWithTable "t2" "w")).

(** [SELECT * FROM csv:a.csv AS t1 JOIN csv:b.csv AS t2 ON <on>;] *)
Definition composite_join_tree (on : OnTree) : SelectTree :=
  mkSelectTree false SelectTimes None (mkTableSource "csv:a.csv" (Some "t1"))
    [mkJoinClause JT_JOIN (mkTableSource "csv:b.csv" (Some "t2")) on]
    None None None None.

(** [SELECT sum( * ) FROM csv:f.csv;] *)
Definition select_sum_times_tree : SelectTree :=
  mkSelectTree false (SelectColumns (ColsAggregation "sum" AggArgTimes)) None
    (mkTableSource "csv:f.csv" None) [] None None None None.

(** [SELECT a FROM csv:f.csv ORDER BY sum( * );] *)
Definition order_sum_times_tree : SelectTree :=
  mkSelectTree false (SelectColumns (ColsColumn "a")) None
    (mkTableSource "csv:f.csv" None) [] None None
    (Some (OrderParamsOne (OrderParamAggregation "sum" CustomAggTimes WayEmpty))) None.

(** ** More of app/etl/core.py and app/compiler/yacc.py *)

(** The cell of a row under a column label, as [data[column_names]] reads it. *)
Definition lookup_cell (cols : list string) (row : list Value) (n : string) : Value :=
  match index_of n cols with
  | Some i => nth i row VNull
  | None => VNull
  end.

(** A value token of INSERT and UPDATE ([p_value]): a STRING, an integer,
    or a float, carried by its Python [repr] text. *)
Inductive InsertValue : Type :=
| IVStr (s : string)
| IVInt (z : Z)
| IVFloat (repr_text : string).

(** Derivations of [assign] and [assigns] (right-recursive). *)
Record AssignTree : Type := mkAssign { as_column : string; as_value : InsertValue }.

Inductive AssignsTree : Type :=
| AssignsOne (a : AssignTree)
| AssignsComma (a : AssignTree) (rest : AssignsTree).

(** The exception [list.extend(None)] raises. *)
Inductive PyException : Type := TypeErrorNoneNotIterable.

(** [p_assign] *)
Definition eval_assign (a : AssignTree) : string * InsertValue :=
  (p_column (as_column a), as_value a).

(** [p_assigns_end] ([[p[1]]]) and [p_assigns] ([[p[1]].extend(p[3])], whose
    value is the [None] that [extend] returns). *)
Fixpoint eval_assigns (t : AssignsTree)
  : sum PyException (option (list (string * InsertValue))) :=
  match t with
  | AssignsOne a => inr (Some [eval_assign a])
  | AssignsComma a rest =>
      match eval_assigns rest with
      | inl e => inl e
      | inr (Some _) => inr None
      | inr None => inl TypeErrorNoneNotIterable
      end
  end.

Fixpoint assigns_count (t : AssignsTree) : nat :=
  match t with
  | AssignsOne _ => 1
  | AssignsComma _ rest => S (assigns_count rest)
  end.

(** [p_update]: reduce [assigns], then [p[0] = None] (the actions of the
    [where] part cannot fail and are left out). *)
Definition p_update (t : AssignsTree) : sum PyException unit :=
  match eval_assigns t with
  | inl e => inl e
  | inr _ => inr tt
  end.

(** Derivations of [values], [single_values], [insert_values] and [icolumn]. *)
Inductive ValuesTree : Type :=
| ValuesOne (v : InsertValue)
| ValuesComma (l r : ValuesTree).

Inductive InsertValuesTree : Type :=
| InsertValuesOne (row : ValuesTree)
| InsertValuesComma (l r : InsertValuesTree).

Fixpoint eval_values (t : ValuesTree) : list InsertValue :=
  match t with
  | ValuesOne v => [v]
  | ValuesComma l r => eval_values l ++ eval_values r
  end.

Fixpoint eval_insert_values (t : InsertValuesTree) : list (list InsertValue) :=
  match t with
  | InsertValuesOne row => [eval_values row]
  | InsertValuesComma l r => eval_insert_values l ++ eval_insert_values r
  end.

(** Decimal text of a Python int. *)
Definition Z_text (z : Z) : string :=
  if (z <? 0)%Z then ("-" ++ nat_text (Z.to_nat (- z)))%string else nat_text (Z.to_nat z).

Definition repr_insert_value (v : InsertValue) : string :=
  match v with
  | IVStr s => py_repr_str s
  | IVInt z => Z_text z
  | IVFloat t => t
  end.

(** [str()] of a Python list, given the [repr] of its items. *)
Definition repr_list {A : Type} (r : A -> string) (l : list A) : string :=
  ("[" ++ String.concat ", " (map r l) ++ "]")%string.

(** [str(p[3]).replace("\\", "\\\\")]: every backslash doubled. *)
Fixpoint double_backslashes (s : string) : string :=
  match s with
  | EmptyString => EmptyString
  | String c s' =>
      if Ascii.eqb c "\" then String "\" (String "\" (double_backslashes s'))
      else String c (double_backslashes s')
  end.

(** [p_insert]: the program text it returns ([p[4]] is [None] without a
    column list). *)
Definition p_insert (datasource : string) (icolumn : option IColumnsTree)
  (values : InsertValuesTree) : string :=
  let p3 := double_backslashes datasource in
  let p4 := match icolumn with
            | Some t => repr_list py_repr_str (eval_icolumns t)
            | None => "None"
            end in
  ("from app import etl" ++ nl ++
   "import pandas as pd" ++ nl ++ nl ++
   "values = " ++ repr_list (repr_list repr_insert_value) (eval_insert_values values) ++ nl ++
   "data_destination = '" ++ p3 ++ "'" ++ nl ++
   "data = pd.DataFrame(values, columns=" ++ p4 ++ ")" ++ nl ++
   "etl.load(data, data_destination)" ++ nl)%string.

(** The value of a single-quoted Python string literal, the text between
    and including its quotes.  Escapes: backslash-newline, backslash,
    quotes, [\a \b \f \n \r \t \v], and an unrecognised escape kept as
    written; the octal, [\x], [\N], [\u] and [\U] escapes are not modelled
    ([None]), nor is a literal broken by a line end or by text after its
    closing quote ([None], a SyntaxError). *)
Definition simple_escape (e : ascii) : option (list ascii) :=
  let n := nat_of_ascii e in
  if (n =? 10)%nat then Some []
  else if (n =? 92)%nat then Some [e]
  else if (n =? 39)%nat || (n =? 34)%nat then Some [e]
  else if Ascii.eqb e "a" then Some [ascii_of_nat 7]
  else if Ascii.eqb e "b" then Some [ascii_of_nat 8]
  else if Ascii.eqb e "f" then Some [ascii_of_nat 12]
  else if Ascii.eqb e "n" then Some [ascii_of_nat 10]
  else if Ascii.eqb e "r" then Some [ascii_of_nat 13]
  else if Ascii.eqb e "t" then Some [ascii_of_nat 9]
  else if Ascii.eqb e "v" then Some [ascii_of_nat 11]
  else if ((48 <=? n)%nat && (n <=? 55)%nat) || Ascii.eqb e "x" || Ascii.eqb e "N"
          || Ascii.eqb e "u" || Ascii.eqb e "U" then None
  else Some ["\"%char; e].

Fixpoint literal_body (l : list ascii) : option (list ascii) :=
  match l with
  | [] => None
  | c :: rest =>
      let n := nat_of_ascii c in
      if (n =? 39)%nat then match rest with [] => Some [] | _ => None end
      else if (n =? 92)%nat then
        match rest with
        | [] => None
        | e :: rest' =>
            match simple_escape e, literal_body rest' with
            | Some xs, Some ys => Some (xs ++ ys)
            | _, _ => None
            end
        end
      else if (n =? 10)%nat || (n =? 13)%nat then None
      else option_map (cons c) (literal_body rest)
  end.

Definition single_quoted_value (s : string) : option string :=
  match list_ascii_of_string s with
  | c :: rest => if Ascii.eqb c "'" then option_map string_of_list_ascii (literal_body rest)
                 else None
  | [] => None
  end.

(** A SELECT derivation with every table alias left out. *)
Definition erase_join_alias (t : JoinClauseTree) : JoinClauseTree :=
  mkJoinClause (jc_type t) (mkTableSource (ts_datasource (jc_source t)) None) (jc_on t).

Definition erase_aliases (t : SelectTree) : SelectTree :=
  mkSelectTree (st_distinct t) (st_columns t) (st_into t)
    (mkTableSource (ts_datasource (st_from t)) None) (map erase_join_alias (st_joins t))
    (st_where t) (st_group t) (st_order t) (st_limit t).

(** ** Instances and helpers of the further properties *)

Definition is_digit_char (c : ascii) : Prop := digit_val c <> None.

Definition digitZ (c : ascii) : Z := Z.of_nat (nat_of_ascii c - 48).

Definition column_position (cols : list string) (n : string) : result nat :=
  match index_of n cols with
  | Some i => Ok i
  | None => Error (ColumnNotFound n)
  end.

(** [sales] with its first row repeated. *)
Definition sales_repeated : Relation :=
  mkRelation ["region"; "amount"]
    [[VStr "east"; VInt 10]; [VStr "east"; VInt 10]; [VStr "west"; VInt 5];
     [VStr "east"; VInt 20]].

Definition distinct_limit_criteria : Criteria :=
  mkCriteria AllColumns true None None None (Some ("limit", LInt 2)).

Definition assign_tree (col : string) (v : Z) : AssignTree := mkAssign col (IVInt v).

Definition code_of (r : result (string * list (string * string))) : result string :=
  match r with
  | Ok p => Ok (fst p)
  | Error e => Error e
  end.

Definition no_quote_or_line_end (c : ascii) : Prop :=
  nat_of_ascii c <> 39 /\ nat_of_ascii c <> 10 /\ nat_of_ascii c <> 13.

(** A SELECT derivation with its INTO part replaced. *)
Definition with_into (t : SelectTree) (into : option string) : SelectTree :=
  mkSelectTree (st_distinct t) (st_columns t) into (st_from t) (st_joins t)
    (st_where t) (st_group t) (st_order t) (st_limit t).

(** [SELECT * INTO <into> FROM <src>;] *)
Definition star_from_tree (into : option string) (src : string) : SelectTree :=
  mkSelectTree false SelectTimes into (mkTableSource src None) [] None None None None.

(** * Properties *)

(** ** Join *)

(** C1 (as amended).  With a valid kind, [join] on two empty inputs returns
    the empty frame; when only the left input is empty it returns the empty
    frame for inner or left and the right input otherwise; when only the
    right input is empty it returns the empty frame for inner or right and
    the left input otherwise. *)
Theorem join_empty_input_rules :
  forall merge d1 d2 left_col right_col how,
    str_mem how valid_join_types = true ->
    (frame_empty d1 = true -> frame_empty d2 = true ->
       join merge (Some d1) (Some d2) left_col right_col how = Ok empty_frame) /\
    (frame_empty d1 = true -> frame_empty d2 = false ->
       join merge (Some d1) (Some d2) left_col right_col how =
         if str_mem how ["inner"; "left"] then Ok empty_frame else Ok d2) /\
    (frame_empty d1 = false -> frame_empty d2 = true ->
       join merge (Some d1) (Some d2) left_col right_col how =
         if str_mem how ["inner"; "right"] then Ok empty_frame else Ok d1).
Proof.
  intros merge d1 d2 lc rc how Hv; unfold join; rewrite Hv; simpl.
  repeat split; intros H1 H2; rewrite H1, H2; reflexivity.
Qed.

Lemma join_empty_input_rules_witness :
  str_mem "right" valid_join_types = true /\
  frame_empty empty_frame = true /\ frame_empty sales = false /\
  join merge_never_reached (Some empty_frame) (Some sales) "x" "region" "right" = Ok sales.
Proof.
  split; [reflexivity|]. split; [reflexivity|]. split; [reflexivity|].
  apply (join_empty_input_rules merge_never_reached empty_frame sales "x" "region" "right");
    reflexivity.
Defined.

(** C1, as stated, fails: with both inputs empty and kind right, the
    left-empty rule promises a copy of the right input, but a right input
    with a schema and no rows comes back as the column-less frame. *)
Lemma join_empty_input_rules_counterexample :
  frame_empty empty_frame = true /\
  str_mem "right" ["inner"; "left"] = false /\
  join merge_never_reached (Some empty_frame) (Some (mkRelation ["a"] [])) "x" "y" "right"
    <> Ok (mkRelation ["a"] []).
Proof.
  split; [reflexivity|]. split; [reflexivity|].
  vm_compute. intros H; inversion H.
Qed.

(** C10.  When [join] short-circuits on empty inputs to an empty result
    (both empty; left empty with kind inner or left; right empty with kind
    inner or right), the result has no columns and no rows, and no
    missing-join-column error is raised, whatever the key columns. *)
Theorem join_short_circuit_empty_has_no_columns :
  forall merge d1 d2 left_col right_col how,
    str_mem how valid_join_types = true ->
    (frame_empty d1 && frame_empty d2 = true \/
     frame_empty d1 && str_mem how ["inner"; "left"] = true \/
     frame_empty d2 && str_mem how ["inner"; "right"] = true) ->
    join merge (Some d1) (Some d2) left_col right_col how = Ok empty_frame /\
    columns empty_frame = [] /\ rows empty_frame = [] /\
    (forall side col available,
       join merge (Some d1) (Some d2) left_col right_col how <>
         Error (JoinColumnNotFound side col available)).
Proof.
  intros merge d1 d2 lc rc how Hv Hcase.
  assert (Hj : join merge (Some d1) (Some d2) lc rc how = Ok empty_frame).
  { unfold join; rewrite Hv; simpl.
    destruct (frame_empty d1) eqn:E1, (frame_empty d2) eqn:E2; simpl in *;
      destruct Hcase as [H|[H|H]]; try discriminate; rewrite ?H; reflexivity. }
  split; [exact Hj|]. split; [reflexivity|]. split; [reflexivity|].
  intros side col av; rewrite Hj; discriminate.
Qed.

Lemma join_short_circuit_empty_has_no_columns_witness :
  join merge_never_reached (Some sales) (Some (mkRelation ["id"; "name"] []))
    "cust_id" "id" "inner" = Ok empty_frame.
Proof.
  apply (join_short_circuit_empty_has_no_columns merge_never_reached sales
           (mkRelation ["id"; "name"] []) "cust_id" "id" "inner");
    [reflexivity | right; right; reflexivity].
Defined.

(** C8 (as amended).  When both inputs are non-empty and the kind is valid,
    a left key absent from the left schema fails with the left side, the
    column and the left columns; otherwise a right key absent from the right
    schema fails with the right side, the column and the right columns.
    When either input is empty, no missing-join-column error is raised. *)
Theorem join_missing_key_column :
  forall merge d1 d2 left_col right_col how,
    str_mem how valid_join_types = true ->
    (frame_empty d1 = false -> frame_empty d2 = false ->
     (str_mem left_col (columns d1) = false ->
        join merge (Some d1) (Some d2) left_col right_col how =
          Error (JoinColumnNotFound LeftSide left_col (columns d1))) /\
     (str_mem left_col (columns d1) = true -> str_mem right_col (columns d2) = false ->
        join merge (Some d1) (Some d2) left_col right_col how =
          Error (JoinColumnNotFound RightSide right_col (columns d2)))) /\
    (frame_empty d1 = true \/ frame_empty d2 = true ->
     forall side col available,
       join merge (Some d1) (Some d2) left_col right_col how <>
         Error (JoinColumnNotFound side col available)).
Proof.
  intros merge d1 d2 lc rc how Hv; split.
  - intros H1 H2; unfold join; rewrite Hv, H1, H2; simpl.
    split; intros Hl; rewrite Hl; simpl; [reflexivity|].
    intros Hr; rewrite Hr; reflexivity.
  - intros He side col av Habs. unfold join in Habs. rewrite Hv in Habs. cbn [negb] in Habs.
    destruct He as [He|He]; rewrite He in Habs;
      repeat match type of Habs with
             | context [if ?b then _ else _] => destruct b
             end; discriminate Habs.
Qed.

Lemma join_missing_key_column_witness :
  join merge_never_reached (Some sales) (Some sales) "cust_id" "region" "left" =
    Error (JoinColumnNotFound LeftSide "cust_id" ["region"; "amount"]) /\
  join merge_never_reached (Some (mkRelation ["a"] [])) (Some sales) "x" "region" "right" <>
    Error (JoinColumnNotFound LeftSide "x" ["a"]).
Proof.
  split.
  - apply (proj1 (join_missing_key_column merge_never_reached sales sales "cust_id" "region"
             "left" eq_refl) eq_refl eq_refl); reflexivity.
  - exact (proj2 (join_missing_key_column merge_never_reached (mkRelation ["a"] []) sales
             "x" "region" "right" eq_refl) (or_introl eq_refl) LeftSide "x" ["a"]).
Defined.

(** C8, as stated, fails: a missing left key is not reported when the left
    input has a schema but no rows and the kind is right; the right input
    comes back unchanged. *)
Lemma join_missing_key_column_counterexample :
  str_mem "x" (columns (mkRelation ["a"] [])) = false /\
  join merge_never_reached (Some (mkRelation ["a"] [])) (Some sales) "x" "region" "right"
    = Ok sales.
Proof. split; reflexivity. Qed.

(** ** DISTINCT *)

Lemma Value_eqb_spec (a b : Value) : Value_eqb a b = true <-> a = b.
Proof.
  destruct a, b; simpl; split; intros H; try discriminate; try congruence.
  - apply String.eqb_eq in H; congruence.
  - inversion H; apply String.eqb_refl.
  - apply Z.eqb_eq in H; congruence.
  - inversion H; apply Z.eqb_refl.
  - apply Bool.eqb_prop in H; congruence.
  - inversion H; apply Bool.eqb_reflx.
Qed.

Lemma row_eqb_spec (r1 r2 : list Value) : row_eqb r1 r2 = true <-> r1 = r2.
Proof.
  revert r2; induction r1 as [|a r1 IH]; intros [|b r2]; simpl;
    split; intros H; try discriminate; try reflexivity.
  - apply andb_prop in H as [Ha Hr]. apply Value_eqb_spec in Ha.
    apply IH in Hr. congruence.
  - inversion H; subst. apply andb_true_intro; split.
    + apply Value_eqb_spec; reflexivity.
    + apply IH; reflexivity.
Qed.

Lemma row_mem_In (r : list Value) (l : list (list Value)) : row_mem r l = true <-> In r l.
Proof.
  induction l as [|x l IH]; simpl; [split; [discriminate|contradiction]|].
  rewrite Bool.orb_true_iff, row_eqb_spec, IH. split; intros [H|H]; auto.
Qed.

(** A deduplicated list is disjoint from [seen] and free of duplicates. *)
Lemma drop_duplicates_from_fresh (seen l : list (list Value)) :
  forall x, In x (drop_duplicates_from seen l) -> In x l /\ ~ In x seen.
Proof.
  revert seen; induction l as [|r l IH]; intros seen x Hx; simpl in *; [contradiction|].
  destruct (row_mem r seen) eqn:Hm.
  - apply IH in Hx as [H1 H2]; auto.
  - destruct Hx as [<-|Hx].
    + split; [left; reflexivity|]. intros Hin; apply row_mem_In in Hin; congruence.
    + apply IH in Hx as [H1 H2]. split; [right; exact H1|]. intros Hin; apply H2; right; exact Hin.
Qed.

Lemma drop_duplicates_from_NoDup (seen l : list (list Value)) :
  NoDup (drop_duplicates_from seen l).
Proof.
  revert seen; induction l as [|r l IH]; intros seen; simpl; [constructor|].
  destruct (row_mem r seen); [apply IH|].
  constructor; [|apply IH].
  intros Hin; apply drop_duplicates_from_fresh in Hin as [_ H]; apply H; left; reflexivity.
Qed.

(** On a duplicate-free list disjoint from [seen], deduplication is the identity. *)
Lemma drop_duplicates_from_id (seen l : list (list Value)) :
  NoDup l -> (forall x, In x l -> ~ In x seen) -> drop_duplicates_from seen l = l.
Proof.
  revert seen; induction l as [|r l IH]; intros seen Hnd Hdis; simpl; [reflexivity|].
  inversion Hnd as [|? ? Hr Hnd']; subst.
  destruct (row_mem r seen) eqn:Hm.
  - apply row_mem_In in Hm. exfalso; apply (Hdis r); [left; reflexivity | exact Hm].
  - f_equal. apply IH; [exact Hnd'|].
    intros x Hx [<-|Hs]; [exact (Hr Hx)|]. apply (Hdis x); [right; exact Hx | exact Hs].
Qed.

(** C9.  DISTINCT is idempotent: [drop_duplicates] applied twice is
    [drop_duplicates] applied once, and so is the DISTINCT stage. *)
Theorem drop_duplicates_idempotent :
  forall d : Relation, drop_duplicates (drop_duplicates d) = drop_duplicates d /\
    (forall c, distinct_stage c (distinct_stage c d) = distinct_stage c d).
Proof.
  assert (H : forall d, drop_duplicates (drop_duplicates d) = drop_duplicates d).
  { intros d; unfold drop_duplicates; simpl. f_equal.
    apply drop_duplicates_from_id; [apply drop_duplicates_from_NoDup|].
    intros x _ []. }
  intros d; split; [apply H|].
  intros c; unfold distinct_stage; destruct (c_distinct c); [apply H | reflexivity].
Qed.

(** ** LIMIT / TAIL *)

Lemma limit_stage_tail_rows (cols : list string) (rs : list (list Value)) (k : nat) :
  exists pre r, @Ok Relation (mkRelation cols (skipn (List.length rs - k) rs)) =
    Ok (mkRelation cols r) /\
    rs = pre ++ r /\ List.length r = Nat.min k (List.length rs).
Proof.
  exists (firstn (List.length rs - k) rs), (skipn (List.length rs - k) rs).
  split; [reflexivity|]. split; [symmetry; apply firstn_skipn|].
  rewrite length_skipn; lia.
Qed.

(** C3.  Once the stages before LIMIT / TAIL have produced [d4], a present
    [(kind, n)] makes the transform fail with [InvalidLimit] exactly when
    [n] is not a non-negative integer; [n = 0] gives no rows and the columns
    of [d4]; [limit] keeps a prefix of [d4]'s rows of length [min n rows];
    [tail] keeps a suffix of that length, hence all of [d4] when
    [n >= rows]. *)
Theorem limit_tail_semantics :
  forall aggregate apply_filtering apply_order_by_without_groupby apply_groupby
         apply_groupby_with_order d c d1 d2 d3 d4 op num,
    c_limit c = Some (op, num) ->
    filter_stage apply_filtering c d = Ok d1 ->
    order_stage apply_order_by_without_groupby c d1 = Ok d2 ->
    group_or_project_stage aggregate apply_groupby apply_groupby_with_order c d2 = Ok d3 ->
    distinct_stage c d3 = d4 ->
    let out := transform_select aggregate apply_filtering apply_order_by_without_groupby
                 apply_groupby apply_groupby_with_order (Some d) c in
    (out = Error InvalidLimit <-> (num = LNonInt \/ exists n, num = LInt n /\ (n < 0)%Z)) /\
    (forall n, num = LInt n -> (0 <= n)%Z ->
       (n = 0%Z -> out = Ok (mkRelation (columns d4) [])) /\
       (op = "limit" -> exists r suf, out = Ok (mkRelation (columns d4) r) /\
          rows d4 = r ++ suf /\ List.length r = Nat.min (Z.to_nat n) (List.length (rows d4))) /\
       (op = "tail" -> exists pre r, out = Ok (mkRelation (columns d4) r) /\
          rows d4 = pre ++ r /\ List.length r = Nat.min (Z.to_nat n) (List.length (rows d4))) /\
       (op = "tail" -> (Z.of_nat (List.length (rows d4)) <= n)%Z -> out = Ok d4)).
Proof.
  intros agg filt ord gb gbo d c d1 d2 d3 d4 op num Hl Hf Ho Hg Hd out.
  assert (Hout : out = limit_stage (Some (op, num)) d4).
  { subst out; unfold transform_select; rewrite Hf; simpl; rewrite Ho; simpl;
      rewrite Hg; simpl; rewrite Hd, Hl; reflexivity. }
  rewrite Hout; clear Hout out. split.
  - destruct num as [n|]; simpl.
    + split.
      * destruct (n <? 0)%Z eqn:Hn; [intros _; right; exists n; split; [reflexivity|lia]|].
        destruct (n =? 0)%Z; [discriminate|]. destruct (String.eqb op "limit"); discriminate.
      * intros [H|[m [Hm Hneg]]]; [discriminate|]. inversion Hm; subst.
        replace (m <? 0)%Z with true by lia. reflexivity.
    + split; [intros _; left; reflexivity | reflexivity].
  - intros n -> Hn. simpl. replace (n <? 0)%Z with false by lia.
    split; [intros ->; reflexivity|].
    split; [|split].
    + intros ->. destruct (n =? 0)%Z eqn:Hz.
      * exists [], (rows d4). split; [reflexivity|]. split; [reflexivity|].
        apply Z.eqb_eq in Hz; subst; simpl; reflexivity.
      * simpl. exists (firstn (Z.to_nat n) (rows d4)), (skipn (Z.to_nat n) (rows d4)).
        split; [reflexivity|]. split; [symmetry; apply firstn_skipn | apply length_firstn].
    + intros ->. destruct (n =? 0)%Z eqn:Hz.
      * exists (rows d4), []. split; [reflexivity|]. split; [symmetry; apply app_nil_r|].
        apply Z.eqb_eq in Hz; subst; simpl; reflexivity.
      * simpl. apply limit_stage_tail_rows.
    + intros -> Hle. destruct d4 as [cols rs]; simpl in *.
      destruct (n =? 0)%Z eqn:Hz.
      * apply Z.eqb_eq in Hz; subst. destruct rs; [reflexivity|simpl in Hle; lia].
      * simpl. replace (List.length rs - Z.to_nat n)%nat with 0%nat by lia. reflexivity.
Qed.

Lemma limit_tail_semantics_witness :
  transform_select aggregate_sum_size keep_filter keep_order keep_groupby keep_groupby_order
    (Some sales) (mkCriteria AllColumns false None None None (Some ("tail", LInt 5))) = Ok sales.
Proof.
  refine (proj2 (proj2 (proj2 (proj2 (limit_tail_semantics aggregate_sum_size keep_filter
            keep_order keep_groupby keep_groupby_order sales
            (mkCriteria AllColumns false None None None (Some ("tail", LInt 5)))
            sales sales sales sales "tail" (LInt 5)
            eq_refl eq_refl eq_refl eq_refl eq_refl) 5%Z eq_refl _))) eq_refl _);
    simpl; lia.
Defined.

(** ** GROUP BY, aggregation without GROUP BY, the pre-group sort *)

Lemma str_mem_In (s : string) (l : list string) : str_mem s l = true <-> In s l.
Proof.
  induction l as [|x l IH]; simpl; [split; [discriminate|contradiction]|].
  rewrite Bool.orb_true_iff, String.eqb_eq, IH. split; intros [H|H]; auto.
Qed.

(** The pre-group sort is off whenever GROUP BY is present. *)
Lemma order_stage_grouped (apply_order_by_without_groupby : Relation -> OrderByNode -> result Relation)
  (c : Criteria) (d : Relation) :
  group_truthy (c_group c) = true -> order_stage apply_order_by_without_groupby c d = Ok d.
Proof. intros H; unfold order_stage, pre_group_sort_runs; rewrite H; reflexivity. Qed.

(** C4.  With GROUP BY present and the WHERE stage done, if the resolved,
    de-duplicated group keys miss a non-aggregated selected column, the
    transform fails with [ColumnNotInGroupBy]; in particular
    [SELECT region FROM csv:sales.csv GROUP BY amount;] plans a transform
    that fails so on sales(region, amount). *)
Theorem group_by_column_check :
  forall aggregate apply_filtering apply_order_by_without_groupby apply_groupby
         apply_groupby_with_order,
    (forall d c g d1 keys sel n,
       c_group c = Some g -> g <> [] ->
       filter_stage apply_filtering c d = Ok d1 ->
       group_by_columns_names d1 g = Ok keys ->
       convert_select_column_indices_to_name d1 (c_columns c) = Ok sel ->
       In (SCol n) sel -> ~ In n (get_unique keys) ->
       transform_select aggregate apply_filtering apply_order_by_without_groupby
         apply_groupby apply_groupby_with_order (Some d) c = Error ColumnNotInGroupBy) /\
    (exists sc, p_select scenario_d_tree = Ok sc /\
       transform_select aggregate apply_filtering apply_order_by_without_groupby
         apply_groupby apply_groupby_with_order (Some sales) (plan_criteria sc)
       = Error ColumnNotInGroupBy).
Proof.
  intros agg filt ord gb gbo. split.
  - intros d c g d1 keys sel n Hg Hne Hf Hk Hs Hin Hnot.
    assert (Ht : group_truthy (c_group c) = true) by (rewrite Hg; destruct g; [congruence|reflexivity]).
    unfold transform_select; rewrite Hf; simpl.
    rewrite (order_stage_grouped ord c d1 Ht); simpl.
    unfold group_or_project_stage; rewrite Ht, Hg; unfold group_stage; rewrite Hk; simpl.
    rewrite Hs; simpl.
    replace (check_if_column_names_is_in_group_by sel (get_unique keys)) with false.
    + reflexivity.
    + symmetry. apply Bool.not_true_iff_false. intros Hc.
      unfold check_if_column_names_is_in_group_by in Hc.
      rewrite forallb_forall in Hc. specialize (Hc _ Hin). simpl in Hc.
      apply str_mem_In in Hc. contradiction.
  - eexists; split; reflexivity.
Qed.

(** The tuples of an all-aggregation list resolve and aggregate cell by cell. *)
Lemma aggregation_cells (aggregate : string -> list Value -> result Value)
  (d : Relation) (cols : list SelItem) (cells : list Value) :
  Forall2 (fun it cell => exists f s n, it = SAgg f s /\ resolve_column_ref d s = Ok n /\
             aggregate_cell aggregate d (f, n) = Ok cell) cols cells ->
  exists aggs,
    map_result (fun fc => let* n := resolve_column_ref d (snd fc) in Ok (fst fc, n))
      (agg_pairs cols) = Ok aggs /\
    map_result (aggregate_cell aggregate d) aggs = Ok cells.
Proof.
  induction 1 as [|it cell cols cells [f [s [n [-> [Hr Hc]]]]] _ [aggs [H1 H2]]].
  - exists []; split; reflexivity.
  - exists ((f, n) :: aggs). split; cbn [agg_pairs map_result fst snd].
    + rewrite Hr; cbn [bind]. rewrite H1; reflexivity.
    + rewrite Hc; cbn [bind]. rewrite H2; reflexivity.
Qed.

(** C5.  Without GROUP BY and with a column list, once WHERE has produced
    [d1]: if every item is an aggregation whose column resolves, the
    relation handed to DISTINCT and LIMIT is exactly one row whose cells are
    the aggregations, in order, each computed over all rows of [d1]; if the
    list mixes aggregations and plain columns, the transform fails with
    [AggregationWithoutGroupBy] (after the pre-group sort, when that
    succeeds). *)
Theorem no_group_aggregation :
  forall aggregate apply_filtering apply_order_by_without_groupby apply_groupby
         apply_groupby_with_order d c cols d1,
    group_truthy (c_group c) = false -> c_columns c = ColumnList cols ->
    filter_stage apply_filtering c d = Ok d1 ->
    (forallb is_agg cols = true -> forall cells,
       Forall2 (fun it cell => exists f s n, it = SAgg f s /\
                  resolve_column_ref d1 s = Ok n /\
                  aggregate_cell aggregate d1 (f, n) = Ok cell) cols cells ->
       exists r, rows r = [cells] /\
         transform_select aggregate apply_filtering apply_order_by_without_groupby
           apply_groupby apply_groupby_with_order (Some d) c =
         limit_stage (c_limit c) (distinct_stage c r)) /\
    (existsb is_agg cols = true -> existsb (fun it => negb (is_agg it)) cols = true ->
       forall d2, order_stage apply_order_by_without_groupby c d1 = Ok d2 ->
       transform_select aggregate apply_filtering apply_order_by_without_groupby
         apply_groupby apply_groupby_with_order (Some d) c = Error AggregationWithoutGroupBy).
Proof.
  intros agg filt ord gb gbo d c cols d1 Hg Hc Hf. split.
  - intros Hall cells H2.
    destruct (aggregation_cells agg d1 cols cells H2) as [aggs [Ha Hcells]].
    exists (mkRelation (map (fun fc => (fst fc ++ "(" ++ snd fc ++ ")")%string) aggs) [cells]).
    split; [reflexivity|].
    unfold transform_select; rewrite Hf; simpl.
    assert (Ho : order_stage ord c d1 = Ok d1).
    { unfold order_stage, pre_group_sort_runs; rewrite Hc; simpl; rewrite Hall.
      rewrite Bool.andb_false_r; reflexivity. }
    rewrite Ho; simpl.
    unfold group_or_project_stage; rewrite Hg; unfold project_stage; rewrite Hc; simpl.
    rewrite Hall, Ha; simpl. unfold generate_aggregation_row. rewrite Hcells; simpl.
    reflexivity.
  - intros Hsome Hplain d2 Ho.
    assert (Hna : forallb is_agg cols = false).
    { apply Bool.not_true_iff_false; intros Hall.
      apply existsb_exists in Hplain as [it [Hin Hit]].
      rewrite forallb_forall in Hall. rewrite (Hall it Hin) in Hit; discriminate. }
    unfold transform_select; rewrite Hf; simpl; rewrite Ho; simpl.
    unfold group_or_project_stage; rewrite Hg; unfold project_stage; rewrite Hc; simpl.
    rewrite Hna, Hsome; reflexivity.
Qed.

Lemma no_group_aggregation_witness :
  exists r, rows r = [[VInt 30]] /\
    transform_select aggregate_sum_size filter_east keep_order keep_groupby keep_groupby_order
      (Some sales)
      (mkCriteria (ColumnList [SAgg "sum" "amount"]) false
         (Some (CondBin "=" (CondExp (OpStr "region")) (CondExp (OpStr "'east'"))))
         None None None) =
    limit_stage None (distinct_stage
      (mkCriteria (ColumnList [SAgg "sum" "amount"]) false
         (Some (CondBin "=" (CondExp (OpStr "region")) (CondExp (OpStr "'east'"))))
         None None None) r).
Proof.
  refine (proj1 (no_group_aggregation aggregate_sum_size filter_east keep_order keep_groupby
            keep_groupby_order sales
            (mkCriteria (ColumnList [SAgg "sum" "amount"]) false
               (Some (CondBin "=" (CondExp (OpStr "region")) (CondExp (OpStr "'east'"))))
               None None None)
            [SAgg "sum" "amount"] east_rows eq_refl eq_refl eq_refl) eq_refl [VInt 30] _).
  constructor; [|constructor].
  exists "sum", "amount", "amount". split; [reflexivity|]. split; reflexivity.
Defined.

Lemma group_by_column_check_witness :
  transform_select aggregate_sum_size keep_filter keep_order keep_groupby keep_groupby_order
    (Some sales)
    (mkCriteria (ColumnList [SCol "region"]) false None (Some ["amount"]) None None)
  = Error ColumnNotInGroupBy.
Proof.
  apply (proj1 (group_by_column_check aggregate_sum_size keep_filter keep_order keep_groupby
           keep_groupby_order) sales
           (mkCriteria (ColumnList [SCol "region"]) false None (Some ["amount"]) None None)
           ["amount"] sales ["amount"] [SCol "region"] "region");
    [reflexivity | discriminate | reflexivity | reflexivity | reflexivity
    | left; reflexivity | simpl; intros [H|[]]; discriminate].
Defined.

(** C7.  The ORDER-without-GROUP stage calls the sort exactly when there is
    no GROUP BY, there is an ORDER BY and the select list is not entirely
    aggregations, and passes its input through otherwise; in particular a
    purely aggregating select list without GROUP BY reaches the aggregate
    stage unsorted. *)
Theorem pre_group_sort_runs_exactly :
  forall (apply_order_by_without_groupby : Relation -> OrderByNode -> result Relation) c,
    (pre_group_sort_condition c ->
       exists o, c_order c = Some o /\
         forall d1, order_stage apply_order_by_without_groupby c d1 =
                    apply_order_by_without_groupby d1 o) /\
    (~ pre_group_sort_condition c ->
       forall d1, order_stage apply_order_by_without_groupby c d1 = Ok d1) /\
    (group_truthy (c_group c) = false -> are_select_columns_aggregation (c_columns c) = true ->
       forall d1, order_stage apply_order_by_without_groupby c d1 = Ok d1).
Proof.
  intros ord c.
  assert (Hagg : are_select_columns_aggregation (c_columns c) = true <->
                 exists l, c_columns c = ColumnList l /\ Forall (fun it => is_agg it = true) l).
  { unfold are_select_columns_aggregation; destruct (c_columns c) as [|l].
    - split; [discriminate | intros [l [H _]]; discriminate].
    - split.
      + intros H; exists l; split; [reflexivity|]. apply Forall_forall, forallb_forall, H.
      + intros [l' [H H']]; inversion H; subst. apply forallb_forall, Forall_forall, H'. }
  assert (Hgrp : group_truthy (c_group c) = false <-> c_group c = None \/ c_group c = Some []).
  { unfold group_truthy; destruct (c_group c) as [[|x g]|]; split; intros H; auto;
      try discriminate; destruct H as [H|H]; discriminate. }
  assert (Hrun : pre_group_sort_runs c = true <-> pre_group_sort_condition c).
  { unfold pre_group_sort_runs, pre_group_sort_condition.
    rewrite !Bool.andb_true_iff, !Bool.negb_true_iff, Hgrp, <- Hagg.
    destruct (c_order c) as [o|].
    - split; intros [[H1 H2] H3] || intros [H1 [H2 H3]].
      + split; [exact H1|]. split; [exists o; reflexivity|]. rewrite H3; discriminate.
      + split; [split; [exact H1 | reflexivity]|]. apply Bool.not_true_iff_false; exact H3.
    - split; [intros [[_ H] _]; discriminate | intros [_ [[o H] _]]; discriminate]. }
  split; [|split].
  - intros Hc. apply Hrun in Hc. unfold order_stage. rewrite Hc.
    unfold pre_group_sort_runs in Hc. destruct (c_order c) as [o|].
    + exists o; split; reflexivity.
    + rewrite Bool.andb_false_r in Hc; discriminate.
  - intros Hn d1. unfold order_stage.
    destruct (pre_group_sort_runs c) eqn:E; [|reflexivity].
    exfalso; apply Hn, Hrun; reflexivity.
  - intros Hg Ha d1. unfold order_stage, pre_group_sort_runs. rewrite Ha, Bool.andb_false_r.
    reflexivity.
Qed.

Lemma pre_group_sort_runs_exactly_witness :
  exists o, c_order scenario_b_criteria = Some o /\
    order_stage keep_order scenario_b_criteria sales = keep_order sales o.
Proof.
  destruct (proj1 (pre_group_sort_runs_exactly keep_order scenario_b_criteria)) as [o [Ho H]].
  - split; [left; reflexivity|]. split; [eexists; reflexivity|].
    intros [l [H _]]; discriminate.
  - exists o; split; [exact Ho | apply H].
Defined.

(** ** The plan builder on a composite ON condition *)

Lemma string_append_empty (s : string) : (s ++ EmptyString)%string = s.
Proof. induction s as [|c s IH]; simpl; [reflexivity | rewrite IH; reflexivity]. Qed.

(** C2, as stated, fails: for [ON t1.x = t2.y AND t1.z = t2.w] the join
    step [p_select] emits is the step of neither leaf equality, and changing
    only the second equality changes the emitted step. *)
Lemma composite_on_join_step_counterexample :
  exists sc, p_select (composite_join_tree composite_on) = Ok sc /\
    (forall l r, In (l, r) (on_leaves (eval_on composite_on)) ->
       sc_join_code sc <> join_step_code 0 "csv" "b.csv" l r "inner") /\
    (exists sc', p_select (composite_join_tree
        (OnAndOr "AND" (OnEqual (QualifiedWithTable "t1" "x") (QualifiedWithTable "t2" "y"))
                       (OnEqual (QualifiedWithTable "t1" "q") (QualifiedWithTable "t2" "w"))))
        = Ok sc' /\ sc_join_code sc' <> sc_join_code sc).
Proof.
  eexists; split; [reflexivity|]. split.
  - intros l r Hin. simpl in Hin. destruct Hin as [H|[H|[]]]; inversion H; subst;
      vm_compute; discriminate.
  - eexists; split; [reflexivity|]. vm_compute; discriminate.
Qed.

(** C2 (as amended).  For a JOIN clause whose ON condition is a composite
    [{'operator': op, 'left': A, 'right': B}], the join loop raises nothing
    beyond the datasource split and emits a join step whose key arguments
    are the Python texts of the whole sub-conditions [A] and [B] (dict texts
    starting with a brace), not the columns of a leaf equality. *)
Theorem composite_on_join_step :
  forall idx kind ds alias op A B am j_type j_path,
    split_colon ds = Some (j_type, j_path) ->
    exists am',
      join_loop idx [mkJoinClauseVal kind ds alias (OnBin op A B)] am =
        Ok (join_step_code idx j_type j_path (on_cond_str A) (on_cond_str B) kind, am') /\
      String.prefix "{" (on_cond_str A) = true /\ String.prefix "{" (on_cond_str B) = true.
Proof.
  intros idx kind ds alias op A B am jt jp Hs.
  assert (Hbrace : forall X, String.prefix "{" (on_cond_str X) = true)
    by (intros [l r|o X1 X2]; reflexivity).
  eexists; split; [|split; apply Hbrace].
  simpl. unfold unpack_colon; rewrite Hs; simpl.
  rewrite string_append_empty. reflexivity.
Qed.

Lemma composite_on_join_step_witness :
  exists am',
    join_loop 0 [mkJoinClauseVal "inner" "csv:b.csv" (Some "t2")
                   (OnBin "AND" (OnLeaf "t1.x" "t2.y") (OnLeaf "t1.z" "t2.w"))] [] =
    Ok (join_step_code 0 "csv" "b.csv" (on_cond_str (OnLeaf "t1.x" "t2.y"))
          (on_cond_str (OnLeaf "t1.z" "t2.w")) "inner", am') /\
    String.prefix "{" (on_cond_str (OnLeaf "t1.x" "t2.y")) = true /\
    String.prefix "{" (on_cond_str (OnLeaf "t1.z" "t2.w")) = true.
Proof.
  apply (composite_on_join_step 0 "inner" "csv:b.csv" (Some "t2") "AND"
           (OnLeaf "t1.x" "t2.y") (OnLeaf "t1.z" "t2.w") [] "csv" "b.csv").
  reflexivity.
Defined.

(** ** Aggregation over the wildcard *)

(** C6 (code bug).  [sum( * )] in the select list is rejected with a
    ParserError, but the same aggregation in ORDER BY parses: the statement
    yields an ORDER BY node holding [AggregationNode("sum", "*")]. *)
Theorem order_by_wildcard_aggregation_parses :
  p_select select_sum_times_tree =
    Error (ParserError
      "Syntax error: You cannot use * with aggregation functions except SIZE(*)" "*") /\
  exists sc, p_select order_sum_times_tree = Ok sc /\
    sc_order sc = Some (mkOrderByNode
      [mkOrderByParameter (OrderByAggregation (mkAggregationNode "sum" (AggOnRaw "*"))) ASC]).
Proof. split; [reflexivity | eexists; split; reflexivity]. Qed.

(** * Further properties of app/etl/core.py and app/compiler/yacc.py *)

(** ** String and digit lemmas *)

Lemma string_length_app (s t : string) :
  String.length (s ++ t) = String.length s + String.length t.
Proof. induction s as [|c s IH]; simpl; [reflexivity | now rewrite IH]. Qed.

Lemma substring_full (t : string) : String.substring 0 (String.length t) t = t.
Proof. induction t as [|c t IH]; simpl; [reflexivity | now rewrite IH]. Qed.

Lemma substring_app_prefix (s t : string) :
  String.substring 0 (String.length s) (s ++ t) = s.
Proof. induction s as [|c s IH]; simpl; [now destruct t | now rewrite IH]. Qed.

Lemma substring_app_suffix (s t : string) :
  String.substring (String.length s) (String.length t) (s ++ t) = t.
Proof. induction s as [|c s IH]; simpl; [apply substring_full | exact IH]. Qed.

Lemma bracketed_is_column_number (s : string) :
  is_column_number ("[" ++ s ++ "]") = true.
Proof.
  unfold is_column_number. simpl String.prefix.
  cbn [String.append String.length]. rewrite string_length_app. simpl String.length.
  rewrite Nat.add_1_r. cbn [String.substring].
  pose proof (substring_app_suffix s "]") as H. simpl String.length in H.
  rewrite H. destruct s; reflexivity.
Qed.

Lemma bracketed_strip (s : string) : strip_brackets ("[" ++ s ++ "]") = s.
Proof.
  unfold strip_brackets. cbn [String.append String.length].
  rewrite string_length_app. simpl String.length.
  replace (S (String.length s + 1) - 2) with (String.length s) by lia.
  cbn [String.substring]. apply substring_app_prefix.
Qed.

Lemma bracketed_ends_with (s : string) : ends_with "]" ("[" ++ s ++ "]") = true.
Proof.
  unfold ends_with. cbn [String.append String.length].
  rewrite string_length_app. simpl String.length.
  replace (S (String.length s + 1) - 1) with (S (String.length s)) by lia.
  cbn [String.substring].
  pose proof (substring_app_suffix s "]") as H. simpl String.length in H.
  rewrite H. reflexivity.
Qed.

Lemma digit_not_space (c : ascii) : is_digit_char c -> is_py_space c = false.
Proof.
  unfold is_digit_char, digit_val, is_py_space.
  destruct ((48 <=? nat_of_ascii c)%nat && (nat_of_ascii c <=? 57)%nat) eqn:E;
    [|intro H; now contradiction H].
  intros _. apply andb_true_iff in E as [E1 E2].
  apply Nat.leb_le in E1. apply Nat.leb_le in E2.
  apply orb_false_iff; split; [apply orb_false_iff; split|].
  - apply Nat.eqb_neq; lia.
  - apply andb_false_iff; right. apply Nat.leb_gt; lia.
  - apply andb_false_iff; right. apply Nat.leb_gt; lia.
Qed.

Lemma drop_spaces_digit_head (c : ascii) (l : list ascii) :
  is_digit_char c -> drop_spaces (c :: l) = c :: l.
Proof. intro H. simpl. now rewrite (digit_not_space c H). Qed.

Lemma digit_val_digitZ (c : ascii) : is_digit_char c -> digit_val c = Some (digitZ c).
Proof.
  unfold is_digit_char, digit_val, digitZ.
  destruct (_ && _); [reflexivity | intro H; now contradiction H].
Qed.

Lemma parse_digits_all (l : list ascii) (acc : Z) :
  Forall is_digit_char l ->
  parse_digits acc l = Some (fold_left (fun a c => (a * 10 + digitZ c)%Z) l acc).
Proof.
  revert acc. induction l as [|c l IH]; intros acc H; [reflexivity|].
  inversion H as [|? ? Hc Hl]; subst. simpl. rewrite (digit_val_digitZ c Hc).
  now apply IH.
Qed.

Lemma digits_rev_digits (f n : nat) : Forall is_digit_char (digits_rev f n).
Proof.
  revert n. induction f as [|f IH]; intro n; cbn [digits_rev]; [constructor|].
  constructor.
  - unfold is_digit_char, digit_val.
    pose proof (Nat.mod_upper_bound n 10 ltac:(lia)).
    rewrite nat_ascii_embedding by lia.
    replace ((48 <=? 48 + n mod 10)%nat && (48 + n mod 10 <=? 57)%nat) with true.
    + discriminate.
    + symmetry. apply andb_true_iff; split; apply Nat.leb_le; lia.
  - destruct (n <? 10)%nat; [constructor | apply IH].
Qed.

Lemma digits_rev_value (f n : nat) :
  n < f ->
  fold_left (fun a c => (a * 10 + digitZ c)%Z) (rev (digits_rev f n)) 0%Z = Z.of_nat n.
Proof.
  revert n. induction f as [|f IH]; intros n Hn; [lia|].
  pose proof (Nat.mod_upper_bound n 10 ltac:(lia)) as Hm.
  assert (Hd : digitZ (ascii_of_nat (48 + n mod 10)) = Z.of_nat (n mod 10)).
  { unfold digitZ. rewrite nat_ascii_embedding by lia. f_equal. lia. }
  cbn [digits_rev rev]. rewrite fold_left_app.
  destruct (n <? 10)%nat eqn:E.
  - apply Nat.ltb_lt in E. cbn [rev app fold_left]. rewrite Hd. rewrite Nat.mod_small by lia. lia.
  - apply Nat.ltb_ge in E. rewrite IH.
    + cbn [fold_left]. rewrite Hd. pose proof (Nat.div_mod_eq n 10). lia.
    + assert (n / 10 < n) by (apply Nat.div_lt; lia).
      assert (10 * (n / 10) <= n) by (apply Nat.Div0.mul_div_le). lia.
Qed.

Lemma nat_text_digits (n : nat) :
  exists c l, list_ascii_of_string (nat_text n) = c :: l /\ Forall is_digit_char (c :: l) /\
              parse_digits 0 (c :: l) = Some (Z.of_nat n).
Proof.
  unfold nat_text. rewrite list_ascii_of_string_of_list_ascii.
  pose proof (digits_rev_digits (S n) n) as Hd.
  destruct (rev (digits_rev (S n) n)) as [|c l] eqn:E.
  - apply (f_equal (@List.length ascii)) in E. rewrite length_rev in E. simpl in E. discriminate.
  - exists c, l. split; [reflexivity|].
    assert (Hf : Forall is_digit_char (c :: l)).
    { rewrite <- E. apply Forall_rev. exact Hd. }
    split; [exact Hf|]. rewrite parse_digits_all by exact Hf. rewrite <- E.
    f_equal. apply digits_rev_value. lia.
Qed.

(** [rev (drop_spaces (rev (drop_spaces l)))] leaves a digit string as it is. *)
Lemma strip_spaces_digits (c : ascii) (l : list ascii) :
  Forall is_digit_char (c :: l) ->
  rev (drop_spaces (rev (drop_spaces (c :: l)))) = c :: l.
Proof.
  intro H. inversion H as [|? ? Hc Hl]; subst.
  rewrite drop_spaces_digit_head by exact Hc.
  destruct (rev (c :: l)) as [|c' l'] eqn:E.
  - apply (f_equal (@List.length ascii)) in E. rewrite length_rev in E. simpl in E. discriminate.
  - assert (Hc' : is_digit_char c').
    { assert (In c' (rev (c :: l))) by (rewrite E; left; reflexivity).
      apply in_rev in H0. rewrite Forall_forall in H. now apply H. }
    rewrite drop_spaces_digit_head by exact Hc'. rewrite <- E. apply rev_involutive.
Qed.

Lemma py_int_nat_text (n : nat) : py_int (nat_text n) = Ok (Z.of_nat n).
Proof.
  destruct (nat_text_digits n) as (c & l & E & Hf & Hp).
  unfold py_int. rewrite E, (strip_spaces_digits c l Hf).
  inversion Hf as [|? ? Hc Hl]; subst.
  unfold is_digit_char, digit_val in Hc.
  destruct c as [[] [] [] [] [] [] [] []]; try (exfalso; apply Hc; reflexivity);
    cbn -[parse_digits]; rewrite Hp; reflexivity.
Qed.

Lemma py_int_neg_nat_text (n : nat) : py_int ("-" ++ nat_text n) = Ok (- Z.of_nat n)%Z.
Proof.
  destruct (nat_text_digits n) as (c & l & E & Hf & Hp).
  unfold py_int. cbn [String.append list_ascii_of_string]. rewrite E.
  assert (Hm : drop_spaces ("-"%char :: c :: l) = "-"%char :: c :: l) by reflexivity.
  rewrite Hm. change (rev ("-"%char :: c :: l)) with (rev (c :: l) ++ ["-"%char]).
  inversion Hf as [|? ? Hc Hl]; subst.
  destruct (rev (c :: l)) as [|c' l'] eqn:Er.
  - apply (f_equal (@List.length ascii)) in Er. rewrite length_rev in Er. simpl in Er. discriminate.
  - assert (Hc' : is_digit_char c').
    { assert (In c' (rev (c :: l))) by (rewrite Er; left; reflexivity).
      apply in_rev in H. rewrite Forall_forall in Hf. now apply Hf. }
    cbn [app]. rewrite drop_spaces_digit_head by exact Hc'.
    replace (rev (c' :: l' ++ ["-"%char])) with ("-"%char :: rev (c' :: l')).
    2: { change (c' :: l' ++ ["-"%char]) with ((c' :: l') ++ ["-"%char]).
         now rewrite rev_app_distr. }
    rewrite <- Er, rev_involutive.
    unfold parse_unsigned. rewrite (digit_val_digitZ c Hc), Hp. reflexivity.
Qed.

Lemma is_digit_str_nat_text (n : nat) : is_digit_str (nat_text n) = true.
Proof.
  destruct (nat_text_digits n) as (c & l & E & Hf & _).
  unfold is_digit_str. rewrite E. apply forallb_forall. intros x Hx.
  rewrite Forall_forall in Hf. specialize (Hf x Hx). unfold is_digit_char in Hf.
  destruct (digit_val x); [reflexivity | now contradiction Hf].
Qed.

(** ** Positional column references *)

(** X2: a bracketed column token whose inside is empty or holds an ASCII
    character other than a digit loses its brackets in [p_column] (Python's
    [isdigit] is false there); "[i]" is kept, and [transform_select] resolves
    it to the i-th column when i is below the number of columns, otherwise it
    fails with the index out of range. *)
Theorem bracketed_column_tokens (d : Relation) (i : nat) (n : string) :
  (n = EmptyString \/ (exists c, In c (list_ascii_of_string n) /\ nat_of_ascii c < 128 /\
                                 digit_val c = None) ->
   p_column ("[" ++ n ++ "]") = n) /\
  p_column ("[" ++ nat_text i ++ "]") = ("[" ++ nat_text i ++ "]")%string /\
  resolve_column_ref d ("[" ++ nat_text i ++ "]") =
    (if (i <? List.length (columns d))%nat then Ok (nth i (columns d) "")
     else Error (ColumnIndexOutOfRange (Z.of_nat i))).
Proof.
  assert (Hp : forall s, String.prefix "[" ("[" ++ s ++ "]") = true)
    by (intros [|? ?]; reflexivity).
  split; [|split].
  - intro Hn. unfold p_column. rewrite Hp, bracketed_ends_with, bracketed_strip.
    replace (is_digit_str n) with false; [reflexivity|]. symmetry.
    destruct Hn as [->|(c & Hc & _ & Hd)]; [reflexivity|].
    unfold is_digit_str. destruct (list_ascii_of_string n) as [|x l]; [reflexivity|].
    apply not_true_iff_false. intro Hall. rewrite forallb_forall in Hall.
    specialize (Hall c Hc). rewrite Hd in Hall. discriminate.
  - unfold p_column. rewrite Hp, bracketed_ends_with, bracketed_strip, is_digit_str_nat_text.
    reflexivity.
  - unfold resolve_column_ref. rewrite bracketed_is_column_number, bracketed_strip,
      py_int_nat_text. cbn [bind].
    destruct (i <? List.length (columns d))%nat eqn:E.
    + apply Nat.ltb_lt in E.
      replace ((Z.of_nat i <? 0)%Z || (Z.of_nat (List.length (columns d)) <=? Z.of_nat i)%Z)
        with false.
      * now rewrite Nat2Z.id.
      * symmetry. apply orb_false_iff; split; [apply Z.ltb_ge | apply Z.leb_gt]; lia.
    + apply Nat.ltb_ge in E.
      replace ((Z.of_nat i <? 0)%Z || (Z.of_nat (List.length (columns d)) <=? Z.of_nat i)%Z)
        with true; [reflexivity|].
      symmetry. apply orb_true_iff; right. apply Z.leb_le. lia.
Qed.

Lemma bracketed_column_tokens_witness :
  p_column "[ab]" = "ab" /\ resolve_column_ref sales "[1]" = Ok "amount".
Proof.
  split.
  - apply (proj1 (bracketed_column_tokens sales 0 "ab")). right.
    exists "a"%char. split; [left; reflexivity|]. split; [cbn; lia | reflexivity].
  - exact (proj2 (proj2 (bracketed_column_tokens sales 1 "ab"))).
Defined.

(** X3: a negative position "[-k]" is not counted from the end: the index
    resolution of [transform_select] rejects it as out of range, and
    [p_column] turns the same token into the plain name "-k". *)
Theorem negative_column_reference (d : Relation) (k : nat) (Hk : 0 < k) :
  resolve_column_ref d ("[" ++ ("-" ++ nat_text k) ++ "]") =
    Error (ColumnIndexOutOfRange (- Z.of_nat k)) /\
  p_column ("[" ++ ("-" ++ nat_text k) ++ "]") = ("-" ++ nat_text k)%string.
Proof.
  split.
  - unfold resolve_column_ref. rewrite bracketed_is_column_number, bracketed_strip,
      py_int_neg_nat_text. cbn [bind].
    replace ((- Z.of_nat k <? 0)%Z || _) with true; [reflexivity|].
    symmetry. apply orb_true_iff; left. apply Z.ltb_lt. lia.
  - unfold p_column.
    replace (String.prefix "[" ("[" ++ ("-" ++ nat_text k) ++ "]")) with true by reflexivity.
    rewrite bracketed_ends_with, bracketed_strip. reflexivity.
Qed.

Lemma negative_column_reference_witness :
  resolve_column_ref sales "[-1]" = Error (ColumnIndexOutOfRange (-1)) /\
  p_column "[-1]" = "-1".
Proof. exact (negative_column_reference sales 1 ltac:(lia)). Defined.

(** ** Projection without GROUP BY *)

Lemma index_of_Some_In (n : string) (l : list string) (i : nat) :
  index_of n l = Some i -> In n l.
Proof.
  revert i; induction l as [|x l IH]; intros i H; simpl in H; [discriminate|].
  destruct (String.eqb n x) eqn:E.
  - left. symmetry. now apply String.eqb_eq.
  - destruct (index_of n l) eqn:E'; [|discriminate]. right. now apply (IH n0).
Qed.

Lemma index_of_In (n : string) (l : list string) :
  In n l -> exists i, index_of n l = Some i.
Proof.
  induction l as [|x l IH]; intros H; [contradiction|]. simpl.
  destruct (String.eqb n x) eqn:E; [now exists 0|].
  destruct H as [H|H].
  - subst. now rewrite String.eqb_refl in E.
  - destruct (IH H) as [i Hi]. rewrite Hi. now exists (S i).
Qed.

Lemma map_result_positions (cols names : list string) :
  incl names cols ->
  map_result (column_position cols) names =
    Ok (map (fun n => match index_of n cols with Some i => i | None => 0 end) names).
Proof.
  induction names as [|n names IH]; intros H; [reflexivity|]. simpl.
  destruct (index_of_In n cols (H n (or_introl eq_refl))) as [i Hi].
  unfold column_position at 1. rewrite Hi. cbn [bind].
  rewrite IH by (intros x Hx; apply H; now right). reflexivity.
Qed.

Lemma map_result_positions_error (cols names : list string) (e : Err) :
  map_result (column_position cols) names = Error e ->
  exists n, e = ColumnNotFound n /\ In n names /\ ~ In n cols.
Proof.
  induction names as [|n names IH]; simpl; [discriminate|].
  unfold column_position at 1. destruct (index_of n cols) eqn:Hi; cbn [bind].
  - destruct (map_result (column_position cols) names) eqn:Hr; cbn [bind];
      [discriminate|].
    intros [= <-]. destruct (IH eq_refl) as (m & -> & Hm & Hnm). exists m; auto.
  - intros [= <-]. exists n. split; [reflexivity|]. split; [now left|].
    intro Hin. destruct (index_of_In n cols Hin) as [i Hi']. congruence.
Qed.

Lemma map_result_positions_ok (cols names : list string) (idxs : list nat) :
  map_result (column_position cols) names = Ok idxs -> incl names cols.
Proof.
  revert idxs; induction names as [|n names IH]; intros idxs H x Hx; [contradiction|].
  simpl in H. unfold column_position at 1 in H.
  destruct (index_of n cols) eqn:Hi; cbn [bind] in H; [|discriminate].
  destruct (map_result (column_position cols) names) as [l'|e'] eqn:Hr; cbn [bind] in H;
    [|discriminate].
  destruct Hx as [<-|Hx]; [now apply (index_of_Some_In n cols n0) | now apply (IH l')].
Qed.

(** X4: with a select list of plain column references (no aggregation) and no
    GROUP BY, the projection gives exactly the resolved names as columns, in
    order, one output row per input row holding that row's cell under each
    name; when a resolved name is not a column it fails with ColumnNotFound
    for such a name. *)
Theorem project_stage_plain_columns (aggr : string -> list Value -> result Value)
  (c : Criteria) (d : Relation) (cols : list SelItem) (names : list string)
  (Hc : c_columns c = ColumnList cols) (Hne : cols <> []) (Hplain : existsb is_agg cols = false)
  (Hres : map_result (resolve_column_ref d) (plain_cols cols) = Ok names) :
  (incl names (columns d) ->
   exists r, project_stage aggr c d = Ok r /\ columns r = names /\
     Forall2 (fun src out => out = map (lookup_cell (columns d) src) names) (rows d) (rows r))
  /\
  (~ incl names (columns d) ->
   exists n, project_stage aggr c d = Error (ColumnNotFound n) /\ In n names /\
     ~ In n (columns d)).
Proof.
  assert (Hagg : are_select_columns_aggregation (c_columns c) = false).
  { rewrite Hc. simpl. destruct cols as [|it cols]; [contradiction|].
    simpl in *. destruct it; simpl in *; [reflexivity | discriminate]. }
  assert (Hps : project_stage aggr c d = project d names).
  { unfold project_stage. rewrite Hc. rewrite Hc in Hagg. rewrite Hagg, Hplain, Hres.
    reflexivity. }
  rewrite Hps. unfold project.
  fold (column_position (columns d)).
  split.
  - intro Hincl. rewrite (map_result_positions _ _ Hincl). cbn [bind].
    eexists; split; [reflexivity|]. split; [reflexivity|]. cbn [rows].
    induction (rows d) as [|row rs IH]; constructor; [|exact IH].
    rewrite map_map. apply map_ext_in. intros n Hn. unfold lookup_cell.
    destruct (index_of_In n (columns d) (Hincl n Hn)) as [i Hi]. now rewrite Hi.
  - intro Hn. destruct (map_result (column_position (columns d)) names) as [l'|e'] eqn:Hr.
    + exfalso. apply Hn. now apply (map_result_positions_ok _ _ l').
    + destruct (map_result_positions_error _ _ _ Hr) as (m & -> & Hm & Hnm).
      exists m. auto.
Qed.

Lemma project_stage_plain_columns_witness :
  project_stage aggregate_sum_size
    (mkCriteria (ColumnList [SCol "amount"; SCol "[0]"]) false None None None None) sales =
  Ok (mkRelation ["amount"; "region"]
        [[VInt 10; VStr "east"]; [VInt 5; VStr "west"]; [VInt 20; VStr "east"]]) /\
  exists n, project_stage aggregate_sum_size
    (mkCriteria (ColumnList [SCol "price"]) false None None None None) sales =
    Error (ColumnNotFound n).
Proof.
  split; [|].
  - destruct (proj1 (project_stage_plain_columns aggregate_sum_size
      (mkCriteria (ColumnList [SCol "amount"; SCol "[0]"]) false None None None None) sales
      [SCol "amount"; SCol "[0]"] ["amount"; "region"]
      eq_refl ltac:(discriminate) eq_refl eq_refl)
      ltac:(intros x [<-|[<-|[]]]; simpl; auto)) as (r & Hr & _).
    rewrite Hr. vm_compute in Hr. exact (eq_sym Hr).
  - destruct (proj2 (project_stage_plain_columns aggregate_sum_size
      (mkCriteria (ColumnList [SCol "price"]) false None None None None) sales
      [SCol "price"] ["price"] eq_refl ltac:(discriminate) eq_refl eq_refl)
      ltac:(intros H; specialize (H "price" (or_introl eq_refl)); simpl in H;
            destruct H as [H|[H|[]]]; discriminate)) as (n & Hn & _).
    now exists n.
Defined.

(** ** DISTINCT *)

Lemma drop_duplicates_from_complete (seen l : list (list Value)) (x : list Value) :
  In x l -> In x (drop_duplicates_from seen l) \/ In x seen.
Proof.
  revert seen; induction l as [|r l IH]; intros seen Hx; [contradiction|]. simpl.
  destruct (row_mem r seen) eqn:Hm.
  - destruct Hx as [<-|Hx]; [right; now apply row_mem_In | now apply IH].
  - destruct Hx as [<-|Hx]; [left; now left|].
    destruct (IH (r :: seen) Hx) as [H|[<-|H]]; [left; now right | left; now left | now right].
Qed.

Lemma drop_duplicates_from_length (seen l : list (list Value)) :
  List.length (drop_duplicates_from seen l) <= List.length l.
Proof.
  revert seen; induction l as [|r l IH]; intros seen; simpl; [lia|].
  destruct (row_mem r seen); simpl; [specialize (IH seen) | specialize (IH (r :: seen))]; lia.
Qed.

(** X5: [drop_duplicates] keeps the columns; its rows are rows of the input,
    without repetition, never more than the input had, and the input's first
    row comes first. *)
Theorem drop_duplicates_rows (d : Relation) :
  columns (drop_duplicates d) = columns d /\
  NoDup (rows (drop_duplicates d)) /\
  incl (rows (drop_duplicates d)) (rows d) /\
  List.length (rows (drop_duplicates d)) <= List.length (rows d) /\
  (forall r rs, rows d = r :: rs -> exists rs', rows (drop_duplicates d) = r :: rs').
Proof.
  unfold drop_duplicates; cbn [columns rows].
  split; [reflexivity|]. split; [apply drop_duplicates_from_NoDup|].
  split; [|split; [apply drop_duplicates_from_length|]].
  - intros r H. now apply (drop_duplicates_from_fresh [] (rows d) r H).
  - intros r rs ->. cbn [drop_duplicates_from row_mem]. eexists; reflexivity.
Qed.

Lemma drop_duplicates_rows_witness :
  exists rs', rows (drop_duplicates sales_repeated) = [VStr "east"; VInt 10] :: rs'.
Proof.
  exact (proj2 (proj2 (proj2 (proj2 (drop_duplicates_rows sales_repeated)))) _ _ eq_refl).
Defined.

Lemma firstn_NoDup {A : Type} (k : nat) (l : list A) : NoDup l -> NoDup (firstn k l).
Proof.
  revert l; induction k as [|k IH]; intros [|x l] H; simpl; [constructor..|].
  inversion H as [|? ? Hx Hl]; subst. constructor.
  - intro Hin. apply Hx. rewrite <- (firstn_skipn k l). apply in_or_app. now left.
  - now apply IH.
Qed.

Lemma firstn_In {A : Type} (k : nat) (l : list A) (x : A) : In x (firstn k l) -> In x l.
Proof. intro H. rewrite <- (firstn_skipn k l). apply in_or_app. now left. Qed.

(** X6: with DISTINCT and LIMIT n (n > 0), once the filter, sort and
    projection or grouping stages succeed, [transform_select] returns rows
    without repetition, all taken from the stage's output, and exactly
    min(n, number of distinct rows) of them: duplicates are removed before
    the limit is applied. *)
Theorem distinct_then_limit
  (aggr : string -> list Value -> result Value) (filt : Relation -> CondNode -> result Relation)
  (ord : Relation -> OrderByNode -> result Relation)
  (gb : Relation -> list SelItem -> list string -> result Relation)
  (gbo : Relation -> list SelItem -> list string -> OrderByNode -> result Relation)
  (c : Criteria) (d0 d1 d2 d3 : Relation) (n : Z)
  (Hd : c_distinct c = true) (Hl : c_limit c = Some ("limit", LInt n)) (Hn : (0 < n)%Z)
  (H1 : filter_stage filt c d0 = Ok d1) (H2 : order_stage ord c d1 = Ok d2)
  (H3 : group_or_project_stage aggr gb gbo c d2 = Ok d3) :
  exists r, transform_select aggr filt ord gb gbo (Some d0) c = Ok r /\
    columns r = columns d3 /\ NoDup (rows r) /\ incl (rows r) (rows d3) /\
    List.length (rows r) = Nat.min (Z.to_nat n) (List.length (rows (drop_duplicates d3))).
Proof.
  unfold transform_select. rewrite H1; cbn [bind]. rewrite H2; cbn [bind]. rewrite H3; cbn [bind].
  unfold distinct_stage. rewrite Hd. unfold limit_stage. rewrite Hl.
  replace (n <? 0)%Z with false by (symmetry; apply Z.ltb_ge; lia).
  replace (n =? 0)%Z with false by (symmetry; apply Z.eqb_neq; lia).
  cbn [String.eqb Ascii.eqb Bool.eqb]. eexists; split; [reflexivity|].
  cbn [columns rows drop_duplicates]. split; [reflexivity|]. split; [|split].
  - apply firstn_NoDup, drop_duplicates_from_NoDup.
  - intros x Hx. apply firstn_In in Hx. now apply (drop_duplicates_from_fresh [] (rows d3) x Hx).
  - apply length_firstn.
Qed.

Lemma distinct_then_limit_witness :
  exists r, transform_select aggregate_sum_size keep_filter keep_order keep_groupby
    keep_groupby_order (Some sales_repeated) distinct_limit_criteria = Ok r /\
    NoDup (rows r) /\ List.length (rows r) = 2.
Proof.
  destruct (distinct_then_limit aggregate_sum_size keep_filter keep_order keep_groupby
    keep_groupby_order distinct_limit_criteria sales_repeated sales_repeated sales_repeated
    sales_repeated 2 eq_refl eq_refl ltac:(lia) eq_refl eq_refl eq_refl)
    as (r & Hr & _ & Hnd & _ & Hlen).
  exists r. split; [exact Hr|]. split; [exact Hnd|]. rewrite Hlen. reflexivity.
Defined.

(** ** UPDATE's assignment list *)

Lemma eval_assigns_long (t : AssignsTree) :
  2 <= assigns_count t ->
  eval_assigns t = inr None \/ eval_assigns t = inl TypeErrorNoneNotIterable.
Proof.
  induction t as [a|a rest IH]; intro H; [simpl in H; lia|].
  destruct rest as [b|b rest'].
  - left. reflexivity.
  - assert (Hc : 2 <= assigns_count (AssignsComma b rest')) by (destruct rest'; simpl; lia).
    right.
    change (eval_assigns (AssignsComma a (AssignsComma b rest'))) with
      (match eval_assigns (AssignsComma b rest') with
       | inl e => inl e
       | inr (Some _) => inr (@None (list (string * InsertValue)))
       | inr None => inl TypeErrorNoneNotIterable
       end).
    destruct (IH Hc) as [E|E]; rewrite E; reflexivity.
Qed.

(** X1: [p_assigns] builds its value with [[p[1]].extend(p[3])], which is
    [None]: a SET list with two assignments reduces to [None], and one with
    three or more makes the next [extend] run on [None], so parsing the
    UPDATE raises a TypeError. A single assignment gives the one-item list. *)
Theorem update_assigns_extend (t : AssignsTree) :
  (forall a, t = AssignsOne a -> eval_assigns t = inr (Some [eval_assign a])) /\
  (assigns_count t = 2 -> eval_assigns t = inr None) /\
  (3 <= assigns_count t ->
   eval_assigns t = inl TypeErrorNoneNotIterable /\ p_update t = inl TypeErrorNoneNotIterable).
Proof.
  split; [intros a ->; reflexivity|]. split.
  - destruct t as [a|a [b|b rest]]; intro H; simpl in H.
    + lia.
    + reflexivity.
    + destruct rest; simpl in H; lia.
  - destruct t as [a|a rest]; intro H; [simpl in H; lia|].
    assert (Hc : 2 <= assigns_count rest) by (simpl in H; lia).
    assert (E : eval_assigns (AssignsComma a rest) = inl TypeErrorNoneNotIterable).
    { change (eval_assigns (AssignsComma a rest)) with
        (match eval_assigns rest with
         | inl e => inl e
         | inr (Some _) => inr (@None (list (string * InsertValue)))
         | inr None => inl TypeErrorNoneNotIterable
         end).
      destruct (eval_assigns_long rest Hc) as [E|E]; rewrite E; reflexivity. }
    unfold p_update. rewrite E. split; reflexivity.
Qed.

Lemma update_assigns_extend_witness :
  eval_assigns (AssignsComma (assign_tree "a" 1) (AssignsOne (assign_tree "b" 2))) = inr None /\
  p_update (AssignsComma (assign_tree "a" 1)
              (AssignsComma (assign_tree "b" 2) (AssignsOne (assign_tree "c" 3))))
    = inl TypeErrorNoneNotIterable.
Proof.
  split.
  - exact (proj1 (proj2 (update_assigns_extend
      (AssignsComma (assign_tree "a" 1) (AssignsOne (assign_tree "b" 2))))) eq_refl).
  - exact (proj2 (proj2 (proj2 (update_assigns_extend
      (AssignsComma (assign_tree "a" 1)
         (AssignsComma (assign_tree "b" 2) (AssignsOne (assign_tree "c" 3))))))
      ltac:(simpl; lia))).
Defined.

(** ** The join kind *)

(** X7: [join] checks the join kind before anything else: a kind outside
    inner, left, right and outer is reported even when an input is None or
    empty; with a valid kind, a None input is reported before any empty-input
    rule or column check. *)
Theorem join_validation_order
  (merge : Relation -> Relation -> string -> string -> string -> sum string Relation)
  (df1 df2 : option Relation) (left_col right_col how : string) :
  (str_mem how valid_join_types = false ->
   join merge df1 df2 left_col right_col how = Error (InvalidJoinType how)) /\
  (str_mem how valid_join_types = true -> df1 = None \/ df2 = None ->
   join merge df1 df2 left_col right_col how = Error NullInput).
Proof.
  unfold join. split; intro Hk; rewrite Hk; cbn [negb]; [reflexivity|].
  intros [->| ->]; [reflexivity|]. now destruct df1.
Qed.

Lemma join_validation_order_witness :
  join merge_never_reached None None "a" "b" "cross" = Error (InvalidJoinType "cross") /\
  join merge_never_reached (Some empty_frame) None "a" "b" "inner" = Error NullInput.
Proof.
  split.
  - exact (proj1 (join_validation_order merge_never_reached None None "a" "b" "cross")
             eq_refl).
  - exact (proj2 (join_validation_order merge_never_reached (Some empty_frame) None
             "a" "b" "inner") eq_refl (or_intror eq_refl)).
Defined.

(** X8: every join kind the grammar produces ([p_join_type_*], FULL [OUTER]
    JOIN giving "outer") is one [join] accepts, so a generated join never
    fails with InvalidJoinType. *)
Theorem grammar_join_kinds_accepted
  (merge : Relation -> Relation -> string -> string -> string -> sum string Relation)
  (t : JoinTypeTree) (df1 df2 : option Relation) (left_col right_col : string) :
  In (eval_join_type t) valid_join_types /\
  forall k, join merge df1 df2 left_col right_col (eval_join_type t) <> Error (InvalidJoinType k).
Proof.
  assert (Hk : str_mem (eval_join_type t) valid_join_types = true) by (destruct t; reflexivity).
  split; [apply str_mem_In; exact Hk|].
  intros k Habs. unfold join in Habs. rewrite Hk in Habs. cbn [negb] in Habs.
  destruct df1 as [d1|], df2 as [d2|]; try discriminate Habs.
  repeat match type of Habs with
         | context [if ?b then _ else _] => destruct b
         | context [match ?m with inl _ => _ | inr _ => _ end] => destruct m
         end; discriminate Habs.
Qed.

(** ** Table aliases in [p_select] *)

Lemma join_loop_code_alias_free (idx : nat) (cls cls' : list JoinClause)
  (am am' : list (string * string)) :
  Forall2 (fun x y => j_kind x = j_kind y /\ j_datasource x = j_datasource y /\
                      j_on x = j_on y) cls cls' ->
  code_of (join_loop idx cls am) = code_of (join_loop idx cls' am').
Proof.
  intro H. revert idx am am'.
  induction H as [|x y cls cls' (Hk & Hd & Ho) _ IH]; intros idx am am'; [reflexivity|].
  cbn [join_loop]. cbv zeta. rewrite <- Hd, <- Hk, <- Ho.
  destruct (unpack_colon (j_datasource x)) as [tp|e]; cbn [bind]; [|reflexivity].
  generalize (IH (S idx)
    (match j_alias x with Some a => (a, ("join_df_" ++ nat_text idx)%string) :: am
                        | None => am end)
    (match j_alias y with Some a => (a, ("join_df_" ++ nat_text idx)%string) :: am'
                        | None => am' end)).
  destruct (join_loop (S idx) cls _) as [[c1 r1]|e1],
           (join_loop (S idx) cls' _) as [[c2 r2]|e2];
    cbn [code_of bind fst]; congruence.
Qed.

Lemma bind_ext {A B : Type} (m : result A) (f g : A -> result B) :
  (forall x, f x = g x) -> bind m f = bind m g.
Proof. intro H. destruct m; cbn [bind]; [apply H | reflexivity]. Qed.

(** X9: the program [p_select] generates does not depend on the aliases
    of the FROM and JOIN tables: leaving every alias out gives the same
    result. The alias mapping it builds is never read, so a qualified column
    such as t1.x reaches [etl.join] as the text "t1.x". *)
Theorem p_select_ignores_aliases (t : SelectTree) : p_select (erase_aliases t) = p_select t.
Proof.
  destruct t as [dist cols into from joins wh grp ord lim].
  unfold p_select, erase_aliases. cbn [st_columns st_into st_from st_joins st_where st_group
    st_order st_limit st_distinct ts_datasource ts_alias].
  apply bind_ext; intro cs. apply bind_ext; intro oc. apply bind_ext; intro ds.
  apply bind_ext; intro lc. cbv zeta.
  assert (H := join_loop_code_alias_free 0 (map eval_join_clause (map erase_join_alias joins))
                 (map eval_join_clause joins) []
                 (match ts_alias from with Some a => [(a, "extracted_data")] | None => [] end)).
  destruct (join_loop 0 (map eval_join_clause (map erase_join_alias joins)) []),
           (join_loop 0 (map eval_join_clause joins) _);
    cbn [bind code_of] in *; try (specialize (H ltac:(clear H; induction joins; constructor; auto)));
    congruence.
Qed.

(** ** INSERT's destination *)

Lemma string_app_assoc (a b c : string) : ((a ++ b) ++ c = a ++ b ++ c)%string.
Proof. induction a as [|x a IH]; simpl; [reflexivity | now rewrite IH]. Qed.

Lemma literal_body_doubled (s : string) :
  Forall no_quote_or_line_end (list_ascii_of_string s) ->
  literal_body (list_ascii_of_string (double_backslashes s ++ "'")) =
    Some (list_ascii_of_string s).
Proof.
  induction s as [|c s IH]; intro H; [reflexivity|].
  inversion H as [|? ? (H39 & H10 & H13) Hs]; subst.
  cbn [double_backslashes]. destruct (Ascii.eqb c "\") eqn:Eb.
  - apply Ascii.eqb_eq in Eb. subst c.
    cbn [String.append list_ascii_of_string literal_body].
    change (nat_of_ascii "\") with 92. cbn [Nat.eqb]. rewrite (IH Hs). reflexivity.
  - cbn [String.append list_ascii_of_string literal_body].
    assert (H92 : nat_of_ascii c <> 92).
    { intro E. apply Ascii.eqb_neq in Eb. apply Eb.
      rewrite <- (ascii_nat_embedding c), E. reflexivity. }
    apply Nat.eqb_neq in H39, H10, H13, H92. rewrite H39, H92, H10, H13. cbn [orb].
    rewrite (IH Hs). reflexivity.
Qed.

(** X10: the destination [p_insert] writes into the generated program, with
    its backslashes doubled between single quotes, reads back in Python as
    exactly the DATASOURCE text, provided that text holds no single quote
    and no line end: a Windows path keeps its backslashes. *)
Theorem insert_destination_round_trip (datasource : string)
  (icolumn : option IColumnsTree) (values : InsertValuesTree)
  (Hs : Forall no_quote_or_line_end (list_ascii_of_string datasource)) :
  exists pre post lit,
    p_insert datasource icolumn values = (pre ++ "data_destination = " ++ lit ++ post)%string /\
    single_quoted_value lit = Some datasource.
Proof.
  exists ("from app import etl" ++ nl ++ "import pandas as pd" ++ nl ++ nl ++ "values = " ++
          repr_list (repr_list repr_insert_value) (eval_insert_values values) ++ nl)%string.
  exists (nl ++ "data = pd.DataFrame(values, columns=" ++
          match icolumn with
          | Some t => repr_list py_repr_str (eval_icolumns t)
          | None => "None"
          end ++ ")" ++ nl ++ "etl.load(data, data_destination)" ++ nl)%string.
  exists ("'" ++ double_backslashes datasource ++ "'")%string.
  split.
  - unfold p_insert. rewrite !string_app_assoc. reflexivity.
  - unfold single_quoted_value. cbn [String.append list_ascii_of_string].
    cbn [Ascii.eqb Bool.eqb]. rewrite (literal_body_doubled datasource Hs). cbn [option_map].
    now rewrite string_of_list_ascii_of_string.
Qed.

Lemma insert_destination_round_trip_witness :
  exists pre post lit,
    p_insert "C:\data\out.csv" None (InsertValuesOne (ValuesOne (IVInt 1))) =
      (pre ++ "data_destination = " ++ lit ++ post)%string /\
    single_quoted_value lit = Some "C:\data\out.csv".
Proof.
  apply (insert_destination_round_trip "C:\data\out.csv" None
           (InsertValuesOne (ValuesOne (IVInt 1)))).
  unfold no_quote_or_line_end. cbn [list_ascii_of_string].
  repeat constructor; intro E; vm_compute in E; discriminate E.
Defined.

(** ** The colon split of FROM and INTO *)

Lemma split_colon_Some (s a b : string) :
  split_colon s = Some (a, b) ->
  s = (a ++ String ":" b)%string /\ ~ In ":"%char (list_ascii_of_string a).
Proof.
  revert a b; induction s as [|c s IH]; intros a b H; cbn [split_colon] in H; [discriminate|].
  destruct (Ascii.eqb c ":") eqn:E.
  - apply Ascii.eqb_eq in E. subst c. injection H as <- <-. split; [reflexivity | intros []].
  - destruct (split_colon s) as [[a' b']|] eqn:Es; cbn [option_map] in H; [|discriminate].
    injection H as <- <-. destruct (IH a' b' eq_refl) as [-> Hn]. split; [reflexivity|].
    cbn [list_ascii_of_string fst]. intros [Hc|Hc]; [|contradiction].
    subst c. discriminate E.
Qed.

Lemma split_colon_None (s : string) :
  ~ In ":"%char (list_ascii_of_string s) -> split_colon s = None.
Proof.
  induction s as [|c s IH]; intro H; [reflexivity|]. cbn [split_colon].
  destruct (Ascii.eqb c ":") eqn:E.
  - apply Ascii.eqb_eq in E. subst c. exfalso. apply H. now left.
  - rewrite IH; [reflexivity|]. intro Hc. apply H. now right.
Qed.

Lemma split_colon_app (a b : string) :
  ~ In ":"%char (list_ascii_of_string a) -> split_colon (a ++ String ":" b) = Some (a, b).
Proof.
  induction a as [|c a IH]; intro H; [reflexivity|]. cbn [String.append split_colon].
  destruct (Ascii.eqb c ":") eqn:E.
  - apply Ascii.eqb_eq in E. subst c. exfalso. apply H. now left.
  - rewrite IH; [reflexivity|]. intro Hc. apply H. now right.
Qed.

Lemma bind_Ok {A B : Type} (m : result A) (f : A -> result B) (y : B) :
  bind m f = Ok y -> exists x, m = Ok x /\ f x = Ok y.
Proof. destruct m as [x|e]; cbn [bind]; [intro H; now exists x | discriminate]. Qed.

(** X11: [p_select] splits the FROM datasource at its first colon
    ([split(":", 1)]): a generated program extracts with the text before it
    as the type and all the rest, later colons included, as the path; a
    datasource without a colon makes the parse fail with a ValueError
    (not enough values to unpack). *)
Theorem p_select_source_split (t : SelectTree) :
  (forall sc, p_select t = Ok sc ->
   exists a b, ts_datasource (st_from t) = (a ++ ":" ++ b)%string /\
     ~ In ":"%char (list_ascii_of_string a) /\
     sc_extract_code sc = ("extracted_data = etl.extract('" ++ a ++ "', '" ++ b ++ "')" ++ nl)%string)
  /\
  (forall cs o, eval_select_columns (st_columns t) = Ok cs -> eval_order (st_order t) = Ok o ->
   ~ In ":"%char (list_ascii_of_string (ts_datasource (st_from t))) ->
   p_select t = Error (NotEnoughValuesToUnpack (ts_datasource (st_from t)))).
Proof.
  split.
  - intros sc H. unfold p_select in H. cbv zeta in H.
    destruct (bind_Ok _ _ _ H) as (cs & _ & H1). cbv beta in H1.
    destruct (bind_Ok _ _ _ H1) as (o & _ & H2). cbv beta in H2.
    destruct (bind_Ok _ _ _ H2) as ([a b] & Hds & H3). cbv beta in H3.
    destruct (bind_Ok _ _ _ H3) as (lc & _ & H4). cbv beta in H4.
    destruct (bind_Ok _ _ _ H4) as (jc & _ & H5). cbv beta in H5.
    injection H5 as <-. unfold unpack_colon in Hds.
    destruct (split_colon (ts_datasource (st_from t))) as [[a' b']|] eqn:Es;
      [|discriminate]. injection Hds as -> ->.
    destruct (split_colon_Some _ _ _ Es) as [Heq Hn].
    exists a, b. split; [exact Heq|]. split; [exact Hn | reflexivity].
  - intros cs o Hc Ho Hn. unfold p_select. cbv zeta. rewrite Hc. cbn [bind]. rewrite Ho.
    cbn [bind]. unfold unpack_colon. rewrite (split_colon_None _ Hn). reflexivity.
Qed.

Lemma load_call_empty_part (a b : string) :
  ~ In ":"%char (list_ascii_of_string a) -> a = EmptyString \/ b = EmptyString ->
  match Some (a ++ ":" ++ b)%string with
  | Some (String _ _ as p4) =>
      let* lp := unpack_colon p4 in
      match lp with
      | (String _ _ as load_type, String _ _ as load_path) =>
          Ok ("etl.load(transformed_data, '" ++ load_type ++ "', '" ++ load_path ++ "')")%string
      | _ => Ok EmptyString
      end
  | _ => Ok EmptyString
  end = Ok EmptyString.
Proof.
  intros Hn Hab. destruct a as [|ca a].
  - reflexivity.
  - destruct Hab as [Ha| ->]; [discriminate|].
    pose proof (split_colon_app (String ca a) "" Hn) as Es. cbn [String.append] in Es |- *.
    unfold unpack_colon. rewrite Es. reflexivity.
Qed.

(** X12: INTO is split the same way, and the generated program loads its
    result only when both the type before the first colon and the path after
    it are non-empty (then with [etl.load(transformed_data, type, path)]).
    With INTO "csv:" or ":out.csv" the statement parses exactly as it does
    without INTO, and loads nothing. *)
Theorem p_select_into_load_call (t : SelectTree) :
  (forall sc, p_select t = Ok sc ->
   (forall a b, st_into t = Some (a ++ ":" ++ b)%string ->
      ~ In ":"%char (list_ascii_of_string a) -> a <> EmptyString -> b <> EmptyString ->
      sc_load_call sc = ("etl.load(transformed_data, '" ++ a ++ "', '" ++ b ++ "')")%string) /\
   (sc_load_call sc <> EmptyString ->
      exists a b, st_into t = Some (a ++ ":" ++ b)%string /\
        ~ In ":"%char (list_ascii_of_string a) /\ a <> EmptyString /\ b <> EmptyString)) /\
  (forall a b, ~ In ":"%char (list_ascii_of_string a) -> a = EmptyString \/ b = EmptyString ->
   p_select (with_into t (Some (a ++ ":" ++ b)%string)) = p_select (with_into t None)).
Proof.
  split.
  - intros sc H. unfold p_select in H. cbv zeta in H.
    destruct (bind_Ok _ _ _ H) as (cs & _ & H1). cbv beta in H1.
    destruct (bind_Ok _ _ _ H1) as (o & _ & H2). cbv beta in H2.
    destruct (bind_Ok _ _ _ H2) as (ds & _ & H3). cbv beta in H3.
    destruct (bind_Ok _ _ _ H3) as (lc & Hlc & H4). cbv beta in H4.
    destruct (bind_Ok _ _ _ H4) as (jc & _ & H5). cbv beta in H5.
    injection H5 as <-. cbn [sc_load_call]. split.
    + intros a b Hi Hn Ha Hb. rewrite Hi in Hlc.
      destruct a as [|ca a]; [contradiction|]. cbn [String.append] in Hlc.
      unfold unpack_colon in Hlc.
      pose proof (split_colon_app (String ca a) b Hn) as Es. cbn [String.append] in Es.
      rewrite Es in Hlc. cbn [bind] in Hlc.
      destruct b as [|cb b]; [contradiction|]. cbv beta iota in Hlc.
      injection Hlc as <-. reflexivity.
    + intro Hne. destruct (st_into t) as [[|c s]|]; try (injection Hlc as <-; contradiction).
      destruct (bind_Ok _ _ _ Hlc) as ([a b] & Hs & Hm). cbv beta in Hm.
      unfold unpack_colon in Hs.
      destruct (split_colon (String c s)) as [[a' b']|] eqn:Es; [|discriminate].
      injection Hs as -> ->. destruct (split_colon_Some _ _ _ Es) as [Heq Hn].
      destruct a as [|ca a], b as [|cb b]; try (injection Hm as <-; contradiction).
      exists (String ca a), (String cb b). rewrite Heq.
      split; [reflexivity|]. split; [exact Hn|]. split; discriminate.
  - intros a b Hn Hab. unfold p_select, with_into. cbv zeta.
    cbn [st_columns st_into st_from st_joins st_where st_group st_order st_limit st_distinct].
    apply bind_ext; intro cs. apply bind_ext; intro oc. apply bind_ext; intro ds.
    rewrite (load_call_empty_part a b Hn Hab). reflexivity.
Qed.

Lemma p_select_source_split_witness :
  (exists sc, p_select (star_from_tree None "csv:dir/a:b.csv") = Ok sc /\
    exists a b, ts_datasource (st_from (star_from_tree None "csv:dir/a:b.csv")) =
                  (a ++ ":" ++ b)%string /\
      ~ In ":"%char (list_ascii_of_string a) /\
      sc_extract_code sc =
        ("extracted_data = etl.extract('" ++ a ++ "', '" ++ b ++ "')" ++ nl)%string) /\
  p_select (star_from_tree None "sales.csv") = Error (NotEnoughValuesToUnpack "sales.csv").
Proof.
  split.
  - eexists; split; [reflexivity|].
    apply (proj1 (p_select_source_split (star_from_tree None "csv:dir/a:b.csv"))).
    reflexivity.
  - apply (proj2 (p_select_source_split (star_from_tree None "sales.csv")) AllColumns
             None); [reflexivity | reflexivity |].
    cbn. intuition discriminate.
Defined.

Lemma p_select_into_load_call_witness :
  (exists sc, p_select (star_from_tree (Some "csv:out.csv") "csv:a.csv") = Ok sc /\
    sc_load_call sc = "etl.load(transformed_data, 'csv', 'out.csv')") /\
  (exists sc, p_select (star_from_tree (Some "csv:") "csv:a.csv") = Ok sc /\
    sc_load_call sc = EmptyString).
Proof.
  split.
  - eexists; split; [reflexivity|].
    apply (proj1 (proj1 (p_select_into_load_call (star_from_tree (Some "csv:out.csv") "csv:a.csv"))
             _ eq_refl) "csv" "out.csv"); [reflexivity | | discriminate | discriminate].
    cbn. intuition discriminate.
  - change (star_from_tree (Some "csv:") "csv:a.csv")
      with (with_into (star_from_tree None "csv:a.csv") (Some ("csv" ++ ":" ++ "")%string)).
    rewrite (proj2 (p_select_into_load_call (star_from_tree None "csv:a.csv")) "csv" ""
               ltac:(cbn; intuition discriminate) (or_intror eq_refl)).
    eexists; split; reflexivity.
Defined.

(** X13: ORDER BY turns a positional token "[i]" into [ColumnIndexNode i]
    ([int(token[1:-1])]) and a bracketed name "[n]" into [ColumnNameNode n]. *)
Theorem order_by_column_tokens (i : nat) (n : string) :
  eval_custom_column (CustomIndex ("[" ++ nat_text i ++ "]")) = Ok (ColumnIndexNode (Z.of_nat i)) /\
  eval_custom_column (CustomBracketed ("[" ++ n ++ "]")) = Ok (ColumnNameNode n).
Proof.
  cbn [eval_custom_column]. rewrite !bracketed_strip, py_int_nat_text. split; reflexivity.
Qed.
